(** * scrape0: rule classification, type inference and field extraction

    A shallow embedding of [scraper/types.py], [scraper/models.py] and
    [scraper/extraction.py], with the properties of the extraction pass
    stated and proved over it.

    Python [str] values are modelled as [string]: sequences of code points
    below 256.  The built-in string methods the code calls ([strip],
    [lower], [split], [startswith], [endswith], [in], [join], [int],
    [float]) are written out below for that range. *)

From Stdlib Require Import ZArith QArith Ascii.
From Stdlib Require String.
From Stdlib Require DecimalString DecimalFacts DecimalPos DecimalN DecimalZ.
From stdpp Require Import gmap strings list.

Local Open Scope Z_scope.
Local Open Scope stdpp_scope.

(** ** Python string primitives *)

Module PyStr.

Definition code (c : ascii) : N := N_of_ascii c.

(** [str.isspace] on one code point below 256: TAB..CR, FS..US, space,
    NEL and the no-break space. *)
Definition is_space (c : ascii) : bool :=
  let n := code c in
  ((9 <=? n) && (n <=? 13) || (28 <=? n) && (n <=? 32)
   || (n =? 133) || (n =? 160))%N.

Definition is_digit (c : ascii) : bool :=
  let n := code c in ((48 <=? n) && (n <=? 57))%N.

Definition digit_value (c : ascii) : Z := Z.of_N (code c) - 48.

(** [str.lower] on one code point below 256. *)
Definition lower_char (c : ascii) : ascii :=
  let n := code c in
  if ((65 <=? n) && (n <=? 90)
      || (192 <=? n) && (n <=? 222) && negb (n =? 215))%N
  then ascii_of_N (n + 32) else c.

Fixpoint lower (s : string) : string :=
  match s with
  | EmptyString => EmptyString
  | String c s' => String (lower_char c) (lower s')
  end.

(** [s.lstrip(chars)], [s.rstrip(chars)] and [s.strip(chars)], the set
    of characters given as a predicate. *)
Fixpoint lstrip_by (p : ascii -> bool) (s : string) : string :=
  match s with
  | EmptyString => EmptyString
  | String c s' => if p c then lstrip_by p s' else s
  end.

Fixpoint rstrip_by (p : ascii -> bool) (s : string) : string :=
  match s with
  | EmptyString => EmptyString
  | String c s' =>
      match rstrip_by p s' with
      | EmptyString => if p c then EmptyString else String c EmptyString
      | r => String c r
      end
  end.

Definition strip_by (p : ascii -> bool) (s : string) : string :=
  rstrip_by p (lstrip_by p s).

(** [s.strip()] *)
Definition strip (s : string) : string := strip_by is_space s.

(** Every character of [s] satisfies [p]; with [is_space], [s] is empty or
    consists only of whitespace. *)
Fixpoint all_chars (p : ascii -> bool) (s : string) : bool :=
  match s with
  | EmptyString => true
  | String c s' => p c && all_chars p s'
  end.

(** [bool(s)]: a string is truthy when it is not empty. *)
Definition truthy (s : string) : bool :=
  match s with EmptyString => false | _ => true end.

(** [s.startswith(p)] *)
Definition startswith (s p : string) : bool := String.prefix p s.

(** [s.endswith(p)]: some suffix of [s] is [p]. *)
Fixpoint endswith (s p : string) : bool :=
  String.eqb s p
  || match s with
     | EmptyString => false
     | String _ s' => endswith s' p
     end.

(** [c in s] for a one-character needle. *)
Fixpoint contains (c : ascii) (s : string) : bool :=
  match s with
  | EmptyString => false
  | String d s' => Ascii.eqb d c || contains c s'
  end.

(** [s.split(sep)] for a one-character separator. *)
Fixpoint split (sep : ascii) (s : string) : list string :=
  match s with
  | EmptyString => [EmptyString]
  | String c s' =>
      if Ascii.eqb c sep then EmptyString :: split sep s'
      else match split sep s' with
           | p :: ps => String c p :: ps
           | [] => [String c EmptyString]
           end
  end.

(** [sep.join(l)] *)
Definition join (sep : string) (l : list string) : string :=
  String.concat sep l.

(** *** [int(s)]

    Surrounding whitespace is dropped, one sign is allowed, then decimal
    digits follow, with single underscores allowed between digits.  The
    interpreter refuses literals of more than [int_max_str_digits]
    digits. *)
Definition int_max_str_digits : nat := 4300.

Fixpoint int_digits (s : string) (prev_digit : bool) (acc : Z) (count : nat)
  : option (Z * nat) :=
  match s with
  | EmptyString => if prev_digit then Some (acc, count) else None
  | String c s' =>
      if is_digit c then
        int_digits s' true (10 * acc + digit_value c) (S count)
      else if Ascii.eqb c "_" then
        if prev_digit then int_digits s' false acc count else None
      else None
  end.

Definition int_unsigned (s : string) : option Z :=
  match int_digits s false 0 0%nat with
  | Some (z, count) =>
      if (count <=? int_max_str_digits)%nat then Some z else None
  | None => None
  end.

Definition py_int (s : string) : option Z :=
  match strip s with
  | EmptyString => None
  | String c s' =>
      if Ascii.eqb c "+" then int_unsigned s'
      else if Ascii.eqb c "-" then Z.opp <$> int_unsigned s'
      else int_unsigned (String c s')
  end.

(** *** [float(s)]

    The interpreter first removes the underscores that stand between two
    digits (any other underscore is an error), then reads an optional
    sign followed by [inf], [infinity], [nan] (in any case) or a decimal
    number with an optional exponent.  Only acceptance is modelled: the
    value is the double the literal denotes. *)
Definition prev_is (p : ascii -> bool) (prev : option ascii) : bool :=
  match prev with
  | Some d => p d
  | None => false
  end.

Fixpoint remove_underscores (prev : option ascii) (s : string) : option string :=
  match s with
  | EmptyString =>
      if prev_is (Ascii.eqb "_") prev then None else Some EmptyString
  | String c s' =>
      if Ascii.eqb c "_" then
        if prev_is is_digit prev then remove_underscores (Some c) s' else None
      else if prev_is (Ascii.eqb "_") prev && negb (is_digit c) then None
      else String c <$> remove_underscores (Some c) s'
  end.

(** Skips a run of digits: how many there were and what follows. *)
Fixpoint skip_digits (s : string) : nat * string :=
  match s with
  | String c s' =>
      if is_digit c then (S (skip_digits s').1, (skip_digits s').2)
      else (0%nat, s)
  | EmptyString => (0%nat, EmptyString)
  end.

Definition skip_sign (s : string) : string :=
  match s with
  | String c s' => if Ascii.eqb c "+" || Ascii.eqb c "-" then s' else s
  | EmptyString => EmptyString
  end.

(** The exponent is read only when it is complete; otherwise the [e] is
    left unread. *)
Definition skip_exponent (s : string) : string :=
  match s with
  | String c s' =>
      if Ascii.eqb (lower_char c) "e" then
        let after := skip_digits (skip_sign s') in
        if (after.1 =? 0)%nat then s else after.2
      else s
  | EmptyString => EmptyString
  end.

(** The fraction: a point and the digits after it, when there is a point. *)
Definition skip_fraction (s : string) : nat * string :=
  match s with
  | String c s' => if Ascii.eqb c "." then skip_digits s' else (0%nat, s)
  | EmptyString => (0%nat, EmptyString)
  end.

Definition decimal_literal (s : string) : bool :=
  let whole := skip_digits s in
  let fraction := skip_fraction whole.2 in
  if (whole.1 + fraction.1 =? 0)%nat then false
  else negb (truthy (skip_exponent fraction.2)).

Definition float_literal (s : string) : bool :=
  match remove_underscores None (strip s) with
  | Some t =>
      let u := skip_sign t in
      let w := lower u in
      String.eqb w "inf" || String.eqb w "infinity" || String.eqb w "nan"
      || decimal_literal u
  | None => false
  end.

(** [float(s)]: the accepted literal, trimmed, or [None] for ValueError. *)
Definition py_float (s : string) : option string :=
  if float_literal s then Some (strip s) else None.

End PyStr.

(** ** [scraper/types.py]: TypeConverter *)

(** The values [infer_and_convert] produces: [bool], [int], [float],
    [list] of [str], or [str].  A float is kept as the literal it was
    read from. *)
Inductive value : Type :=
| VBool (b : bool)
| VInt (z : Z)
| VFloat (literal : string)
| VList (items : list string)
| VStr (s : string).

(** The result of [convert_to_number]: [int], [float] or the [str] given
    back. *)
Inductive number_or_str : Type :=
| NInt (z : Z)
| NFloat (literal : string)
| NStr (s : string).

Module TypeConverter.
Import PyStr.

Definition convert_to_bool (value : string) : bool + string :=
  let normalized := lower (strip value) in
  if bool_decide (normalized ∈ ["yes"; "true"; "1"]) then inl true
  else if bool_decide (normalized ∈ ["no"; "false"; "0"]) then inl false
  else inr value.

Definition convert_to_number (value : string) : number_or_str :=
  let value := strip value in
  if negb (truthy value) then NStr value
  else if negb (contains "." value) then
    match py_int value with
    | Some z => NInt z
    | None => NStr value
    end
  else
    match py_float value with
    | Some f => NFloat f
    | None => NStr value
    end.

Definition default_separators : list ascii :=
  [","%char; ";"%char; "|"%char].

(** The loop over the separators: it returns from the first separator
    that is present and leaves at least one non-empty part. *)
Fixpoint convert_to_list_loop (value : string) (separators : list ascii)
  : list string + string :=
  match separators with
  | [] => inr value
  | sep :: rest =>
      if contains sep value then
        let parts := strip <$> split sep value in
        let non_empty := filter (fun p => truthy p = true) parts in
        if (1 <? length non_empty)%nat then inl non_empty
        else match non_empty with
             | [p] => inr p
             | _ => convert_to_list_loop value rest
             end
      else convert_to_list_loop value rest
  end.

Definition convert_to_list (value : string) (separators : list ascii)
  : list string + string :=
  let value := strip value in
  if negb (truthy value) then inr value
  else convert_to_list_loop value separators.

Definition convert_to_string (value : string) : string := strip value.

(** The first of the default separators that occurs in [value]. *)
Definition first_separator (value : string) : option ascii :=
  List.find (fun sep => contains sep value) default_separators.

(** The trimmed, non-empty pieces of [value] split on [sep]. *)
Definition pieces (sep : ascii) (value : string) : list string :=
  filter (fun p => truthy p = true) (strip <$> split sep value).

Definition infer_and_convert (v : string) : value :=
  if negb (truthy (strip v)) then VStr v
  else
    match convert_to_bool v with
    | inl b => VBool b
    | inr _ =>
        match convert_to_number v with
        | NInt z => VInt z
        | NFloat f => VFloat f
        | NStr _ =>
            match convert_to_list v default_separators with
            | inl l => VList l
            | inr _ => VStr (convert_to_string v)
            end
        end
    end.

End TypeConverter.

(** ** [scraper/errors.py] and the outcome of a call *)

(** The exceptions that reach the extraction code.  [ParsingError] and
    [ExtractionError] are the module's own; [ImportError] is what a missing
    [lxml] raises; [OtherError] stands for every other [Exception] a
    library call may raise.  Each carries its message. *)
Inductive exn : Type :=
| ImportError (msg : string)
| ParsingError (msg : string)
| ExtractionError (msg : string)
| OtherError (msg : string).

Definition exn_str (e : exn) : string :=
  match e with
  | ImportError m | ParsingError m | ExtractionError m | OtherError m => m
  end.

Definition is_ParsingError (e : exn) : bool :=
  match e with ParsingError _ => true | _ => false end.

(** A call either returns or raises. *)
Inductive outcome (A : Type) : Type :=
| Return (a : A)
| Raise (e : exn).
Arguments Return {A} a.
Arguments Raise {A} e.

(** ** [scraper/models.py] *)

Record SiteConfig : Type := {
  id : string;
  url_pattern : string;
  site_type : string;
  (** the two dicts, as their [items()] in insertion order *)
  priority_fields : list (string * string);
  extra_fields : list (string * string);
  timeout_seconds : Z;
  max_retries : Z;
  description : string
}.

Record ExtractionMetadata : Type := {
  md_success : bool;
  extraction_timestamp : string;
  failure_reason : option string;
  md_site_type : string;
  extraction_duration_seconds : Q
}.

(** [ExtractionMetadata.now]; the clock reading is an argument. *)
Definition ExtractionMetadata_now (timestamp : string) (success : bool)
  (site_type : string) : ExtractionMetadata :=
  {| md_success := success;
     extraction_timestamp := timestamp;
     failure_reason := None;
     md_site_type := site_type;
     extraction_duration_seconds := 0%Q |}.

Record FieldStatus : Type := {
  extracted : list string;
  failed : list string;
  not_found : list string
}.

Definition FieldStatus_new : FieldStatus :=
  {| extracted := []; failed := []; not_found := [] |}.

Record ExtractionResult : Type := {
  success : bool;
  res_priority_fields : gmap string value;
  extra_metadata : gmap string value;
  metadata : ExtractionMetadata;
  fields_status : FieldStatus;
  error : option string
}.

(** ** The document libraries

    [extraction.py] reaches the page only through BeautifulSoup, lxml and
    [re].  They are taken as an interface; every theorem below holds for
    each implementation of it. *)

(** One entry of the list [tree.xpath] returns: a string, an element (with
    its [text_content()]) or any other object (with its [str]). *)
Inductive xpath_item : Type :=
| XStr (s : string)
| XElem (text_content : string)
| XObj (repr : string).

(** What [tree.xpath] returns: a list, or a scalar, of which only the truth
    value matters to the caller (indexing a scalar raises TypeError). *)
Inductive xpath_result : Type :=
| XItems (l : list xpath_item)
| XScalar (truth : bool).

Record Engine : Type := {
  soup : Type;
  tag : Type;
  (** [BeautifulSoup(html, "html.parser")] *)
  BeautifulSoup : string -> outcome soup;
  (** [soup.select(selector)] *)
  select : soup -> string -> outcome (list tag);
  (** [elem.get_text(strip=True)] *)
  get_text : tag -> string;
  (** [str(soup)] *)
  soup_str : soup -> string;
  (** [from lxml import html; html.fromstring(text).xpath(path)] *)
  lxml_xpath : string -> string -> outcome xpath_result;
  (** [re.search(pattern, text, re.IGNORECASE)], as [group(0)] of the match *)
  re_search : string -> string -> outcome (option string)
}.

(** ** [scraper/extraction.py] *)

Module RuleParser.
Import PyStr.

Definition parse_rule (rule : string) : string * string :=
  if negb (truthy rule) then ("unknown", rule)
  else if startswith (strip rule) "//" then ("xpath", strip rule)
  else if startswith (strip rule) "/" && endswith (strip rule) "/"
          || startswith (strip rule) "^"
  then ("regex", strip rule)
  else ("css", strip rule).

End RuleParser.

Module ExtractionEngine.
Import PyStr.

Section WithEngine.

Variable E : Engine.

Definition _extract_css (doc : soup E) (selector : string)
  : outcome (option string) :=
  match select E doc selector with
  | Return elements =>
      if bool_decide (elements = []) then Return None
      else
        let texts :=
          filter (fun t => truthy t = true) (get_text E <$> elements) in
        match texts with
        | [] => Return None
        | [t] => Return (Some t)
        | _ => Return (Some (join ", " texts))
        end
  | Raise e => Raise (ExtractionError ("CSS selector error: " +:+ exn_str e))
  end.

Definition _extract_xpath (doc : soup E) (xpath : string)
  : outcome (option string) :=
  match lxml_xpath E (soup_str E doc) xpath with
  | Return (XItems []) | Return (XScalar false) => Return None
  | Return (XItems (XStr s :: _)) => Return (Some s)
  | Return (XItems (XElem t :: _)) => Return (Some t)
  | Return (XItems (XObj r :: _)) => Return (Some r)
  | Return (XScalar true) =>
      Raise (ExtractionError "XPath error: object is not subscriptable")
  | Raise (ImportError _) => Return None
  | Raise e => Raise (ExtractionError ("XPath error: " +:+ exn_str e))
  end.

Definition _extract_regex (doc : soup E) (pattern : string)
  : outcome (option string) :=
  let clean_pattern :=
    if startswith pattern "/" then strip_by (Ascii.eqb "/") pattern
    else strip pattern in
  let html_text := soup_str E doc in
  match re_search E clean_pattern html_text with
  | Return None => Return None
  | Return (Some group0) => Return (Some group0)
  | Raise e => Raise (ExtractionError ("Regex error: " +:+ exn_str e))
  end.

Definition _extract_single_field (doc : soup E) (rule : string)
  : outcome (option string) :=
  if negb (truthy rule) then Return None
  else
    let '(rule_type, pattern) := RuleParser.parse_rule rule in
    if String.eqb rule_type "css" then _extract_css doc pattern
    else if String.eqb rule_type "xpath" then _extract_xpath doc pattern
    else if String.eqb rule_type "regex" then _extract_regex doc pattern
    else Return None.

(** The body of the two loops of [extract_fields]: one field is
    extracted inside [try]/[except Exception], and the dict of the
    section and the status lists are updated. *)
Definition extract_one (doc : soup E)
  (acc : gmap string value * FieldStatus) (item : string * string)
  : gmap string value * FieldStatus :=
  let '(fields, field_status) := acc in
  let '(field_name, rule) := item in
  match _extract_single_field doc rule with
  | Return (Some value) =>
      if truthy (strip value) then
        let converted := TypeConverter.infer_and_convert value in
        (<[field_name := converted]> fields,
         {| extracted := extracted field_status ++ [field_name];
            failed := failed field_status;
            not_found := not_found field_status |})
      else
        (fields,
         {| extracted := extracted field_status;
            failed := failed field_status;
            not_found := not_found field_status ++ [field_name] |})
  | Return None =>
      (fields,
       {| extracted := extracted field_status;
          failed := failed field_status;
          not_found := not_found field_status ++ [field_name] |})
  | Raise _ =>
      (fields,
       {| extracted := extracted field_status;
          failed := failed field_status ++ [field_name];
          not_found := not_found field_status |})
  end.

(** [for field_name, rule in items: ...] *)
Definition extract_loop (doc : soup E) (items : list (string * string))
  (fields : gmap string value) (field_status : FieldStatus)
  : gmap string value * FieldStatus :=
  fold_left (extract_one doc) items (fields, field_status).

Definition extract_fields (timestamp : string) (html_content : string)
  (site_config : SiteConfig) : outcome ExtractionResult :=
  match BeautifulSoup E html_content with
  | Raise e =>
      Raise (ParsingError ("Failed to parse HTML content: " +:+ exn_str e))
  | Return doc =>
      let metadata :=
        ExtractionMetadata_now timestamp false (site_type site_config) in
      let '(priority, field_status) :=
        extract_loop doc (priority_fields site_config) ∅ FieldStatus_new in
      let '(extra, field_status) :=
        extract_loop doc (extra_fields site_config) ∅ field_status in
      let ok := (0 <? length (extracted field_status))%nat in
      let metadata :=
        {| md_success := ok;
           extraction_timestamp := extraction_timestamp metadata;
           failure_reason :=
             if negb ok then Some "no_fields_extracted"
             else failure_reason metadata;
           md_site_type := md_site_type metadata;
           extraction_duration_seconds :=
             extraction_duration_seconds metadata |} in
      Return {| success := ok;
                res_priority_fields := priority;
                extra_metadata := extra;
                metadata := metadata;
                fields_status := field_status;
                error := None |}
  end.

End WithEngine.

End ExtractionEngine.

(** ** What one field contributes

    The three ways the body of the loop can end for one rule. *)
Inductive field_result : Type :=
| Extracted (v : value)
| NotFound
| Failed.

Definition is_extracted (r : field_result) : bool :=
  match r with Extracted _ => true | _ => false end.
Definition is_not_found (r : field_result) : bool :=
  match r with NotFound => true | _ => false end.
Definition is_failed (r : field_result) : bool :=
  match r with Failed => true | _ => false end.

Section FieldResultDefs.
Import PyStr ExtractionEngine.

Variable E : Engine.

Definition field_result_of (doc : soup E) (rule : string) : field_result :=
  match _extract_single_field E doc rule with
  | Return (Some v) =>
      if truthy (strip v) then Extracted (TypeConverter.infer_and_convert v)
      else NotFound
  | Return None => NotFound
  | Raise _ => Failed
  end.

(** The names, in order, of the fields whose result satisfies [p]. *)
Definition names_where (p : field_result -> bool) (doc : soup E)
  (items : list (string * string)) : list string :=
  (filter (fun it => p (field_result_of doc it.2) = true) items).*1.

End FieldResultDefs.

Arguments field_result_of {E} doc rule.
Arguments names_where {E} p doc items.

(** ** Status sets *)

(** [name] is in exactly one of the three status lists. *)
Definition in_exactly_one (name : string) (st : FieldStatus) : Prop :=
  ((name ∈ extracted st) /\ (name ∉ failed st) /\ (name ∉ not_found st))
  \/ ((name ∉ extracted st) /\ (name ∈ failed st) /\ (name ∉ not_found st))
  \/ ((name ∉ extracted st) /\ (name ∉ failed st) /\ (name ∈ not_found st)).

(** How many times [name] occurs in a status list. *)
Definition occurrences (name : string) (l : list string) : nat :=
  length (filter (fun n => n = name) l).

(** The field names a site configures, priority section first. *)
Definition configured_names (cfg : SiteConfig) : list string :=
  (priority_fields cfg).*1 ++ (extra_fields cfg).*1.

(** ** A stand-in for the document libraries

    Enough of the three libraries to run the extraction on small pages: a
    page is read as a flat sequence of elements [<name>text</name>]; a
    selector is an element name, anything else is refused as malformed;
    [lxml] is not installed; a pattern is a plain word searched without
    regard to case, anything else is refused. *)
Module Stub.
Import PyStr.

Inductive scan_state : Type :=
| Outside
| InOpen (name : string)
| InBody (name body : string)
| InClose (name body : string).

Definition snoc (s : string) (c : ascii) : string := s +:+ String c "".

Fixpoint scan (s : string) (st : scan_state) : list (string * string) :=
  match s with
  | EmptyString => []
  | String c s' =>
      match st with
      | Outside =>
          if Ascii.eqb c "<" then scan s' (InOpen "") else scan s' Outside
      | InOpen n =>
          if Ascii.eqb c ">" then scan s' (InBody n "")
          else scan s' (InOpen (snoc n c))
      | InBody n b =>
          if Ascii.eqb c "<" then scan s' (InClose n b)
          else scan s' (InBody n (snoc b c))
      | InClose n b =>
          if Ascii.eqb c ">" then (n, b) :: scan s' Outside
          else scan s' (InClose n b)
      end
  end.

Definition is_name_char (c : ascii) : bool :=
  let n := code c in
  (is_digit c || (97 <=? n) && (n <=? 122))%N.

Definition stub_select (page : string) (selector : string)
  : outcome (list (string * string)) :=
  if truthy selector && all_chars is_name_char selector then
    Return (filter (fun el => el.1 = selector) (scan page Outside))
  else Raise (OtherError "Malformed selector").

Fixpoint find_ignorecase (p t : string) : option string :=
  if String.prefix (lower p) (lower t)
  then Some (String.substring 0 (String.length p) t)
  else match t with
       | EmptyString => None
       | String _ t' => find_ignorecase p t'
       end.

Definition stub_re_search (pattern text : string) : outcome (option string) :=
  if all_chars (fun c => is_name_char (lower_char c)) pattern
  then Return (find_ignorecase pattern text)
  else Raise (OtherError "unsupported pattern").

Definition engine : Engine :=
  {| soup := string;
     tag := string * string;
     BeautifulSoup := fun html => Return html;
     select := stub_select;
     get_text := fun el => strip el.2;
     soup_str := fun page => page;
     lxml_xpath := fun _ _ => Raise (ImportError "No module named 'lxml'");
     re_search := stub_re_search |}.

(** A site with the given priority and extra sections. *)
Definition site (priority extra : list (string * string)) : SiteConfig :=
  {| id := "site"; url_pattern := "example.org"; site_type := "fablab";
     priority_fields := priority; extra_fields := extra;
     timeout_seconds := 30; max_retries := 3; description := "" |}.

Definition run (html : string) (priority extra : list (string * string))
  : outcome ExtractionResult :=
  ExtractionEngine.extract_fields engine "2024-01-01T00:00:00+00:00" html
    (site priority extra).

End Stub.

(** ** Well-formed values *)

(** A string is trimmed when it is not empty and [strip] leaves it as it
    is. *)
Definition trimmed (t : string) : Prop :=
  PyStr.truthy t = true /\ PyStr.strip t = t.

(** What [infer_and_convert] keeps of a match: a string result is trimmed,
    a list result has at least two items, each of them trimmed. *)
Definition well_formed_value (v : value) : Prop :=
  match v with
  | VStr t => trimmed t
  | VFloat literal => trimmed literal
  | VList items => (2 <= length items)%nat /\ Forall trimmed items
  | VBool _ | VInt _ => True
  end.

(** [str(z)] for an [int]: the decimal digits, after a minus sign when [z]
    is negative. *)
Definition py_str_int (z : Z) : string :=
  DecimalString.NilZero.string_of_int (Z.to_int z).

(** ** [scraper/models.py]: ScraperConfig *)

Record ScraperConfig : Type := {
  sites : list SiteConfig;
  primary_library : string;
  default_timeout : Z;
  default_max_retries : Z
}.

(** ** [scraper/config.py]: ConfigManager *)

Module ConfigManager.

(** [needle in hay] *)
Fixpoint substring_in (needle hay : string) : bool :=
  String.prefix needle hay
  || match hay with
     | EmptyString => false
     | String _ hay' => substring_in needle hay'
     end.

(** The state of a manager: the loaded configuration, if any, and the
    cache of the sites already looked up, by URL. *)
Record t : Type := {
  _config : option ScraperConfig;
  _site_cache : gmap string SiteConfig
}.

(** [ConfigManager()] *)
Definition new : t := {| _config := None; _site_cache := ∅ |}.

(** What [load_config] does to the manager once the file is read and
    parsed into [config]: the configuration is replaced and the cache
    cleared. *)
Definition loaded (self : t) (config : ScraperConfig) : t :=
  {| _config := Some config; _site_cache := ∅ |}.

(** [site.url_pattern in url] *)
Definition matches (url : string) (site : SiteConfig) : bool :=
  substring_in (url_pattern site) url.

(** [lookup_site_config]: the site, or the message of the
    [ConfigurationError] raised, with the manager afterwards. *)
Definition lookup_site_config (self : t) (url : string)
  : (string + SiteConfig) * t :=
  match _config self with
  | None => (inl "Configuration not loaded. Call load_config() first.", self)
  | Some config =>
      match _site_cache self !! url with
      | Some site => (inr site, self)
      | None =>
          match List.find (matches url) (sites config) with
          | Some site =>
              (inr site,
               {| _config := _config self;
                  _site_cache := <[url := site]> (_site_cache self) |})
          | None =>
              (inl ("No site configuration found for URL: " +:+ url), self)
          end
      end
  end.

(** The managers a program can hold after [load_config] returned [config]:
    the one [load_config] leaves, and those left by lookups since. *)
Inductive serving (config : ScraperConfig) : t -> Prop :=
| serving_loaded (self : t) : serving config (loaded self config)
| serving_lookup (self : t) (url : string) :
    serving config self -> serving config (lookup_site_config self url).2.

End ConfigManager.

(** ** [scraper/api.py]: scrape_facility *)

Module Api.

(** How a step that leaves the process (files, network, TOML writer) ends:
    it returns, raises the exception the caller catches around it, or
    raises another one.  Each exception is kept as its [str]. *)
Inductive step (A : Type) : Type :=
| Done (a : A)
| Caught (msg : string)
| Uncaught (msg : string).
Arguments Done {A} a.
Arguments Caught {A} msg.
Arguments Uncaught {A} msg.

(** The collaborators of [scrape_facility]. *)
Record World : Type := {
  (** [ConfigManager.load_config(config_path)]; caught: ConfigurationError *)
  load_config : string -> step ScraperConfig;
  (** [InputLayer.validate_and_normalize_url(url)]; caught:
      URLValidationError *)
  validate_and_normalize_url : string -> step string;
  (** [ScrapingEngine(config).fetch_content(url)]; caught: NetworkTimeout,
      NetworkError *)
  fetch_content : ScraperConfig -> string -> step string;
  (** [TOMLOutputFormatter.format_result(result)]; every exception is
      caught *)
  format_result : ExtractionResult -> outcome string;
  (** [FileOutput.write_toml] then [FileOutput.verify_file]; caught:
      IOError *)
  write_and_verify : string -> string -> step unit;
  (** the clock: the timestamp of the extraction and the seconds elapsed
      when the response is prepared *)
  timestamp : string;
  duration : Q
}.

(** The dict [scrape_facility] returns.  [metadata] is [None] for the empty
    dict and otherwise holds the extraction metadata and the field
    status. *)
Record Response : Type := {
  resp_success : bool;
  resp_priority_fields : gmap string value;
  resp_extra_metadata : gmap string value;
  resp_metadata : option (ExtractionMetadata * FieldStatus);
  resp_error : option string
}.

(** The initial [result], with [error] set. *)
Definition failure (msg : string) : Response :=
  {| resp_success := false;
     resp_priority_fields := ∅;
     resp_extra_metadata := ∅;
     resp_metadata := None;
     resp_error := Some msg |}.

(** [scrape_facility(url, config_path, output_path)]: the dict returned,
    or the [str] of the exception that leaves the call. *)
Definition scrape_facility (E : Engine) (W : World)
  (url config_path : string) (output_path : option string)
  : Response + string :=
  match load_config W config_path with
  | Caught msg => inl (failure msg)
  | Uncaught msg => inr msg
  | Done scraper_config =>
  let config_manager := ConfigManager.loaded ConfigManager.new scraper_config in
  match validate_and_normalize_url W url with
  | Caught msg => inl (failure msg)
  | Uncaught msg => inr msg
  | Done normalized_url =>
  match ConfigManager.lookup_site_config config_manager normalized_url with
  | (inl msg, _) => inl (failure msg)
  | (inr site_config, _) =>
  match fetch_content W scraper_config normalized_url with
  | Caught msg => inl (failure msg)
  | Uncaught msg => inr msg
  | Done html_content =>
  match ExtractionEngine.extract_fields E (timestamp W) html_content
          site_config with
  | Raise e => inl (failure (exn_str e))
  | Return extraction_result =>
  match format_result W extraction_result with
  | Raise e => inl (failure (exn_str e))
  | Return toml_output =>
  let written :=
    match output_path with
    | Some path =>
        if PyStr.truthy path then write_and_verify W toml_output path
        else Done tt
    | None => Done tt
    end in
  match written with
  | Caught msg => inl (failure msg)
  | Uncaught msg => inr msg
  | Done _ =>
      let m := metadata extraction_result in
      inl {| resp_success := success extraction_result;
             resp_priority_fields := res_priority_fields extraction_result;
             resp_extra_metadata := extra_metadata extraction_result;
             resp_metadata :=
               Some ({| md_success := md_success m;
                        extraction_timestamp := extraction_timestamp m;
                        failure_reason := failure_reason m;
                        md_site_type := md_site_type m;
                        extraction_duration_seconds := duration W |},
                     fields_status extraction_result);
             resp_error := None |}
  end end end end end end end.

End Api.

(** A stand-in for the collaborators of [scrape_facility]: one configured
    site, a fixed page, a writer that ends as told. *)
Module StubWorld.

Definition config : ScraperConfig :=
  {| sites := [Stub.site [("name", "h1")] [("phone", "h2")]];
     primary_library := "scrapling";
     default_timeout := 30;
     default_max_retries := 3 |}.

Definition world (page : string) (write : Api.step unit) : Api.World :=
  {| Api.load_config := fun _ => Api.Done config;
     Api.validate_and_normalize_url := fun url => Api.Done url;
     Api.fetch_content := fun _ _ => Api.Done page;
     Api.format_result := fun _ => Return "[extraction_metadata]";
     Api.write_and_verify := fun _ _ => write;
     Api.timestamp := "2024-01-01T00:00:00+00:00";
     Api.duration := 0%Q |}.

End StubWorld.

(** ** [scraper/scraper_engine.py]: the retry loop of fetch_content *)

Module ScrapingEngine.

(** What a fetch can raise: the two network errors [fetch_content]
    retries on, or any other exception. *)
Inductive error : Type :=
| NetworkTimeout (msg : string)
| NetworkError (msg : string)
| OtherException (msg : string).

Definition retried (e : error) : bool :=
  match e with
  | NetworkTimeout _ | NetworkError _ => true
  | OtherException _ => false
  end.

(** What the loop does to the world: a call of [_fetch_with_timeout], or a
    [time.sleep(2.0 ** exponent)]. *)
Inductive event : Type :=
| Fetch (url : string) (timeout_seconds : Z)
| Sleep (exponent : nat).

(** The world of the loop: how the call number [attempt] of
    [_fetch_with_timeout] ends, and the exception, if any, that computing
    the backoff and sleeping raises after that attempt. *)
Record Net : Type := {
  _fetch_with_timeout : nat -> string -> Z -> string + error;
  backoff_sleep : nat -> option string
}.

Record t : Type := {
  _timeout : Z;
  _max_retries : Z
}.

(** [ScrapingEngine(config)] *)
Definition new (config : ScraperConfig) : t :=
  {| _timeout := default_timeout config;
     _max_retries := default_max_retries config |}.

(** The code after the loop. *)
Definition after_loop (last_error : option error) : string + error :=
  match last_error with
  | Some e => inr e
  | None => inr (NetworkError "Unknown error during fetch")
  end.

(** [while attempt <= self._max_retries: ...], with the events so far.
    [fuel] bounds the iterations; [fetch_content] gives enough of it. *)
Fixpoint fetch_loop (N : Net) (self : t) (url : string) (timeout_seconds : Z)
  (fuel : nat) (attempt : nat) (last_error : option error) (log : list event)
  : (string + error) * list event :=
  if (Z.of_nat attempt <=? _max_retries self)%Z then
    match fuel with
    | O => (after_loop last_error, log)
    | S fuel' =>
        let log := log ++ [Fetch url timeout_seconds] in
        match _fetch_with_timeout N attempt url timeout_seconds with
        | inl content => (inl content, log)
        | inr e =>
            if retried e then
              if (Z.of_nat attempt <? _max_retries self)%Z then
                match backoff_sleep N attempt with
                | Some msg => (inr (OtherException msg), log)
                | None =>
                    fetch_loop N self url timeout_seconds fuel' (S attempt)
                      (Some e) (log ++ [Sleep attempt])
                end
              else (inr e, log)
            else (inr e, log)
        end
    end
  else (after_loop last_error, log).

(** [fetch_content(url, timeout)]: the content or the exception raised,
    with the fetches and sleeps made. *)
Definition fetch_content (N : Net) (self : t) (url : string)
  (timeout : option Z) : (string + error) * list event :=
  let timeout_seconds :=
    match timeout with
    | Some seconds => if (seconds =? 0)%Z then _timeout self else seconds
    | None => _timeout self
    end in
  fetch_loop N self url timeout_seconds
    (Z.to_nat (_max_retries self + 1)) 0 None [].

(** The events of [k] failed attempts from [attempt] on, each followed by
    its sleep. *)
Fixpoint retries (url : string) (timeout_seconds : Z) (attempt k : nat)
  : list event :=
  match k with
  | O => []
  | S k' =>
      Fetch url timeout_seconds :: Sleep attempt
        :: retries url timeout_seconds (S attempt) k'
  end.

Definition is_fetch (ev : event) : bool :=
  match ev with Fetch _ _ => true | Sleep _ => false end.

(** A fetch that ends with a network error, and a sleep that goes well. *)
Definition fails_and_sleeps (N : Net) (url : string) (timeout_seconds : Z)
  (i : nat) : Prop :=
  (exists e, _fetch_with_timeout N i url timeout_seconds = inr e
             /\ retried e = true)
  /\ backoff_sleep N i = None.

End ScrapingEngine.

(** Two networks for the retry loop: one that answers at its third call,
    one that always times out. *)
Module StubNet.

Definition flaky : ScrapingEngine.Net :=
  {| ScrapingEngine._fetch_with_timeout := fun attempt _ _ =>
       match attempt with
       | 0%nat => inr (ScrapingEngine.NetworkTimeout "Request timed out after 30s")
       | 1%nat => inr (ScrapingEngine.NetworkError "Connection failed")
       | _ => inl "<h1>Acme</h1>"
       end;
     ScrapingEngine.backoff_sleep := fun _ => None |}.

Definition down : ScrapingEngine.Net :=
  {| ScrapingEngine._fetch_with_timeout := fun _ _ _ =>
       inr (ScrapingEngine.NetworkTimeout "Request timed out after 30s");
     ScrapingEngine.backoff_sleep := fun _ => None |}.

End StubNet.

(** * Properties *)

(** Checks of the converters on the inputs of the repository's tests. *)
Module TypeConverterTests.
Import PyStr TypeConverter.

Example test_convert_to_bool :
  convert_to_bool "YES" = inl true /\ convert_to_bool "FALSE" = inl false
  /\ convert_to_bool "maybe" = inr "maybe" /\ convert_to_bool "123" = inr "123".
Proof. repeat split; vm_compute; reflexivity. Qed.

Example test_convert_to_number :
  convert_to_number "123" = NInt 123 /\ convert_to_number "-45" = NInt (-45)
  /\ convert_to_number "3.14" = NFloat "3.14"
  /\ convert_to_number "not-a-number" = NStr "not-a-number"
  /\ convert_to_number "12.34.56" = NStr "12.34.56".
Proof. repeat split; vm_compute; reflexivity. Qed.

Example test_convert_to_list :
  convert_to_list "item1, item2, item3" default_separators
    = inl ["item1"; "item2"; "item3"]
  /\ convert_to_list "skill1; skill2; skill3" default_separators
    = inl ["skill1"; "skill2"; "skill3"]
  /\ convert_to_list "single" default_separators = inr "single"
  /\ convert_to_list "  item1  ,  item2  " default_separators
    = inl ["item1"; "item2"].
Proof. repeat split; vm_compute; reflexivity. Qed.

Example test_infer_and_convert :
  infer_and_convert "true" = VBool true /\ infer_and_convert "no" = VBool false
  /\ infer_and_convert "42" = VInt 42 /\ infer_and_convert "3.14" = VFloat "3.14"
  /\ infer_and_convert "a, b, c" = VList ["a"; "b"; "c"]
  /\ infer_and_convert "just a string" = VStr "just a string".
Proof. repeat split; vm_compute; reflexivity. Qed.

End TypeConverterTests.

(** ** The loops of [extract_fields] *)

Section FieldResults.
Import PyStr ExtractionEngine.

Variable E : Engine.
Implicit Types doc : soup E.

Lemma names_where_nil p doc : names_where p doc [] = [].
Proof. reflexivity. Qed.

Lemma names_where_cons p doc n r items :
  names_where p doc ((n, r) :: items)
  = (if p (field_result_of doc r) then [n] else [])
      ++ names_where p doc items.
Proof.
  unfold names_where. rewrite filter_cons. simpl.
  destruct (p (field_result_of doc r)); case_decide; try done.
Qed.

Lemma names_where_app p doc l1 l2 :
  names_where p doc (l1 ++ l2) = names_where p doc l1 ++ names_where p doc l2.
Proof. unfold names_where. by rewrite filter_app, fmap_app. Qed.

Lemma elem_of_names_where p doc items n :
  n ∈ names_where p doc items
  <-> exists r, (n, r) ∈ items /\ p (field_result_of doc r) = true.
Proof.
  unfold names_where. rewrite list_elem_of_fmap. split.
  - intros [[n' r] [-> [H1 H2]%list_elem_of_filter]]. eauto.
  - intros [r [H1 H2]]. exists (n, r). split; [done|].
    apply list_elem_of_filter. done.
Qed.

(** One step of the loop, by the result of the field. *)
Lemma extract_one_eq doc fields st n r :
  extract_one E doc (fields, st) (n, r)
  = match field_result_of doc r with
    | Extracted v =>
        (<[n := v]> fields,
         {| extracted := extracted st ++ [n];
            failed := failed st;
            not_found := not_found st |})
    | NotFound =>
        (fields,
         {| extracted := extracted st;
            failed := failed st;
            not_found := not_found st ++ [n] |})
    | Failed =>
        (fields,
         {| extracted := extracted st;
            failed := failed st ++ [n];
            not_found := not_found st |})
    end.
Proof.
  unfold extract_one, field_result_of.
  destruct (_extract_single_field E doc r) as [[v|]|e]; [|done|done].
  by destruct (truthy (strip v)).
Qed.

Lemma extract_loop_nil doc fields st :
  extract_loop E doc [] fields st = (fields, st).
Proof. reflexivity. Qed.

Lemma extract_loop_cons doc it items fields st :
  extract_loop E doc (it :: items) fields st
  = extract_loop E doc items
      (extract_one E doc (fields, st) it).1
      (extract_one E doc (fields, st) it).2.
Proof.
  unfold extract_loop. cbn [fold_left].
  by destruct (extract_one E doc (fields, st) it).
Qed.

(** The loop appends, to each status list, the names of the section with
    that result, in the order of the section. *)
Lemma extract_loop_status doc items : forall fields st,
  let st' := (extract_loop E doc items fields st).2 in
  extracted st' = extracted st ++ names_where is_extracted doc items
  /\ failed st' = failed st ++ names_where is_failed doc items
  /\ not_found st' = not_found st ++ names_where is_not_found doc items.
Proof.
  induction items as [|[n r] items IH]; intros fields st; cbn zeta.
  - rewrite extract_loop_nil, !names_where_nil, !app_nil_r. done.
  - rewrite extract_loop_cons, extract_one_eq, !names_where_cons.
    destruct (field_result_of doc r); cbn [fst snd];
      edestruct IH as (-> & -> & ->); cbn;
      rewrite <- ?app_assoc; done.
Qed.

(** The dict of the section: a name absent from the section keeps its
    entry. *)
Lemma extract_loop_lookup_other doc items n : forall fields st,
  n ∉ items.*1 ->
  (extract_loop E doc items fields st).1 !! n = fields !! n.
Proof.
  induction items as [|[m r] items IH]; intros fields st Hn; [done|].
  rewrite fmap_cons in Hn. apply not_elem_of_cons in Hn as [Hne Hn].
  rewrite extract_loop_cons, extract_one_eq.
  destruct (field_result_of doc r); cbn [fst snd];
    rewrite IH by done; try done.
  by rewrite lookup_insert_ne.
Qed.

(** The dict of the section: with the names of the section distinct, a
    field is stored when, and only when, it was extracted, under the value
    inferred from its own match. *)
Lemma extract_loop_lookup doc items n r : forall fields st,
  NoDup items.*1 ->
  (n, r) ∈ items ->
  (extract_loop E doc items fields st).1 !! n
  = match field_result_of doc r with
    | Extracted v => Some v
    | _ => fields !! n
    end.
Proof.
  induction items as [|[m q] items IH]; intros fields st Hnd Hin.
  - by apply elem_of_nil in Hin.
  - rewrite fmap_cons in Hnd. apply NoDup_cons in Hnd as [Hm Hnd].
    rewrite extract_loop_cons, extract_one_eq.
    apply elem_of_cons in Hin as [Heq|Hin].
    + injection Heq as <- <-.
      destruct (field_result_of doc r); cbn [fst snd];
        rewrite (extract_loop_lookup_other doc items n _ _ Hm); try done.
      by rewrite lookup_insert_eq.
    + assert (n <> m) as Hne.
      { intros ->. apply Hm. apply list_elem_of_fmap. by exists (m, r). }
      destruct (field_result_of doc q); cbn [fst snd];
        rewrite (IH _ _ Hnd Hin); try done.
      destruct (field_result_of doc r); [done| |];
        by rewrite lookup_insert_ne.
Qed.

End FieldResults.

Module StubTests.
Import Stub.

(** The scenarios of the specification, run on the stand-in. *)
Example scenario_single_match :
  exists r, run "<h1>Acme</h1>" [("name", "h1")] [] = Return r
    /\ res_priority_fields r !! "name" = Some (VStr "Acme")
    /\ extracted (fields_status r) = ["name"] /\ success r = true.
Proof. eexists. split; [vm_compute; reflexivity|]. repeat split. Qed.

Example scenario_integer :
  exists r, run "<span>3</span>" [("count", "span")] [] = Return r
    /\ res_priority_fields r !! "count" = Some (VInt 3).
Proof. eexists. split; [vm_compute; reflexivity|]. repeat split. Qed.

Example scenario_many_matches :
  exists r, run "<span>Python</span><span>Go</span>" [("skills", "span")] []
            = Return r
    /\ res_priority_fields r !! "skills" = Some (VList ["Python"; "Go"]).
Proof. eexists. split; [vm_compute; reflexivity|]. repeat split. Qed.

Example scenario_not_found :
  exists r, run "<h1>Acme</h1>" [("phone", "h2")] [] = Return r
    /\ res_priority_fields r !! "phone" = None
    /\ not_found (fields_status r) = ["phone"] /\ success r = false
    /\ failure_reason (metadata r) = Some "no_fields_extracted".
Proof. eexists. split; [vm_compute; reflexivity|]. repeat split. Qed.

Example scenario_failed_rule :
  exists r, run "<h1>Acme</h1>" [("bad", "h1["); ("name", "h1")] [] = Return r
    /\ failed (fields_status r) = ["bad"]
    /\ extracted (fields_status r) = ["name"].
Proof. eexists. split; [vm_compute; reflexivity|]. repeat split. Qed.

Example scenario_pattern_rule :
  exists r, run "<h1>Acme</h1>" [("name", "/acme/")] [] = Return r
    /\ res_priority_fields r !! "name" = Some (VStr "Acme").
Proof. eexists. split; [vm_compute; reflexivity|]. repeat split. Qed.

Example scenario_xpath_without_lxml :
  exists r, run "<h1>Acme</h1>" [("name", "//h1")] [("title", "h1")] = Return r
    /\ not_found (fields_status r) = ["name"]
    /\ extracted (fields_status r) = ["title"] /\ success r = true.
Proof. eexists. split; [vm_compute; reflexivity|]. repeat split. Qed.

End StubTests.

(** ** The extraction pass *)

Section Pass.
Import PyStr ExtractionEngine.

Variable E : Engine.
Implicit Types doc : soup E.

(** The three status lists of a section hold, together, each name of the
    section once. *)
Lemma names_where_partition doc items :
  names_where is_extracted doc items ++ names_where is_failed doc items
    ++ names_where is_not_found doc items ≡ₚ items.*1.
Proof.
  induction items as [|[n r] items IH]; [done|].
  rewrite !names_where_cons, fmap_cons. cbn [fst].
  destruct (field_result_of doc r); cbn [is_extracted is_failed is_not_found app].
  - by rewrite IH.
  - rewrite <- !Permutation_middle. by rewrite IH.
  - rewrite <- !Permutation_middle. by rewrite IH.
Qed.

Lemma occurrences_app name (l1 l2 : list string) :
  occurrences name (l1 ++ l2) = (occurrences name l1 + occurrences name l2)%nat.
Proof. unfold occurrences. by rewrite filter_app, length_app. Qed.

Lemma occurrences_absent name (l : list string) :
  name ∉ l -> occurrences name l = 0%nat.
Proof.
  unfold occurrences. induction l as [|x l IH]; intros Hn; [done|].
  apply not_elem_of_cons in Hn as [Hne Hn].
  rewrite filter_cons_False by congruence. auto.
Qed.

(** With the names of a section distinct, a name of the section occurs in
    the status list of its own result, once, and in no other. *)
Lemma occurrences_names_where p doc items name rule :
  NoDup items.*1 -> (name, rule) ∈ items ->
  occurrences name (names_where p doc items)
  = Nat.b2n (p (field_result_of doc rule)).
Proof.
  induction items as [|[m q] items IH]; intros Hnd Hin.
  - by apply elem_of_nil in Hin.
  - rewrite fmap_cons in Hnd. apply NoDup_cons in Hnd as [Hm Hnd].
    rewrite names_where_cons, occurrences_app.
    apply elem_of_cons in Hin as [Heq|Hin].
    + injection Heq as <- <-.
      rewrite (occurrences_absent name (names_where p doc items)).
      * destruct (p (field_result_of doc rule)); cbn [Nat.b2n]; [|done].
        unfold occurrences. by rewrite filter_cons_True by done.
      * intros (r' & Hr' & _)%elem_of_names_where. apply Hm.
        apply list_elem_of_fmap. by exists (name, r').
    + rewrite (IH Hnd Hin).
      assert (name <> m) as Hne.
      { intros ->. apply Hm. apply list_elem_of_fmap. by exists (m, rule). }
      destruct (p (field_result_of doc q)); [|done].
      unfold occurrences at 1. by rewrite filter_cons_False by congruence.
Qed.

(** A call whose page parses returns, and the result is assembled from the
    two loops. *)
Lemma extract_fields_parsed ts html cfg doc :
  BeautifulSoup E html = Return doc ->
  exists r,
    extract_fields E ts html cfg = Return r
    /\ extracted (fields_status r)
       = names_where is_extracted doc (priority_fields cfg ++ extra_fields cfg)
    /\ failed (fields_status r)
       = names_where is_failed doc (priority_fields cfg ++ extra_fields cfg)
    /\ not_found (fields_status r)
       = names_where is_not_found doc (priority_fields cfg ++ extra_fields cfg)
    /\ res_priority_fields r
       = (extract_loop E doc (priority_fields cfg) ∅ FieldStatus_new).1
    /\ (exists st,
          extra_metadata r = (extract_loop E doc (extra_fields cfg) ∅ st).1)
    /\ success r = (0 <? length (extracted (fields_status r)))%nat
    /\ md_success (metadata r) = success r
    /\ failure_reason (metadata r)
       = (if success r then None else Some "no_fields_extracted")
    /\ error r = None.
Proof.
  intros Hdoc. unfold extract_fields. rewrite Hdoc.
  pose proof (extract_loop_status E doc (priority_fields cfg) ∅ FieldStatus_new)
    as Hp.
  destruct (extract_loop E doc (priority_fields cfg) ∅ FieldStatus_new)
    as [priority st1] eqn:Hloop1.
  pose proof (extract_loop_status E doc (extra_fields cfg) ∅ st1) as Hx.
  destruct (extract_loop E doc (extra_fields cfg) ∅ st1)
    as [extra st2] eqn:Hloop2.
  cbn [snd] in Hp, Hx. destruct Hp as (Hp1 & Hp2 & Hp3).
  destruct Hx as (Hx1 & Hx2 & Hx3). cbn [FieldStatus_new extracted failed not_found app] in *.
  eexists. split; [reflexivity|].
  cbn [fields_status res_priority_fields extra_metadata success metadata
       md_success failure_reason error].
  rewrite !names_where_app, Hx1, Hx2, Hx3, Hp1, Hp2, Hp3.
  repeat split.
  - exists st1. by rewrite Hloop2.
  - by destruct (0 <? length _)%nat.
Qed.

(** A call whose page does not parse raises [ParsingError]. *)
Lemma extract_fields_unparsed ts html cfg e :
  BeautifulSoup E html = Raise e ->
  extract_fields E ts html cfg
  = Raise (ParsingError ("Failed to parse HTML content: " +:+ exn_str e)).
Proof. intros Hdoc. unfold extract_fields. by rewrite Hdoc. Qed.

(** A call that returned had its page parsed. *)
Lemma extract_fields_returned ts html cfg r :
  extract_fields E ts html cfg = Return r ->
  exists doc, BeautifulSoup E html = Return doc.
Proof.
  destruct (BeautifulSoup E html) as [doc|e] eqn:Hdoc; [eauto|].
  by rewrite (extract_fields_unparsed _ _ _ _ Hdoc).
Qed.

End Pass.

(** ** Field-level failures *)

(** C1. When the page parses, [extract_fields] returns a result: no
    exception of a field leaves the call.  A field whose extraction raises
    is recorded in [failed], and every field of the priority and the extra
    section is processed whatever the others did: each status list holds,
    in order, the names of the fields of both sections with that result. *)
Theorem extract_fields_isolates_field_failures
  (E : Engine) (ts html : string) (cfg : SiteConfig) (doc : soup E) :
  BeautifulSoup E html = Return doc ->
  exists r,
    ExtractionEngine.extract_fields E ts html cfg = Return r
    /\ (forall name rule e,
          (name, rule) ∈ priority_fields cfg ++ extra_fields cfg ->
          ExtractionEngine._extract_single_field E doc rule = Raise e ->
          name ∈ failed (fields_status r))
    /\ failed (fields_status r)
       = names_where is_failed doc (priority_fields cfg ++ extra_fields cfg)
    /\ extracted (fields_status r)
       = names_where is_extracted doc (priority_fields cfg ++ extra_fields cfg)
    /\ not_found (fields_status r)
       = names_where is_not_found doc (priority_fields cfg ++ extra_fields cfg)
    /\ (length (extracted (fields_status r)) + length (failed (fields_status r))
        + length (not_found (fields_status r))
        = length (priority_fields cfg) + length (extra_fields cfg))%nat.
Proof.
  intros Hdoc.
  destruct (extract_fields_parsed E ts html cfg doc Hdoc)
    as (r & Hr & He & Hf & Hn & _).
  exists r. split; [done|]. split; [|split; [done|split; [done|split; [done|]]]].
  - intros name rule e Hin Hraise. rewrite Hf.
    apply elem_of_names_where. exists rule. split; [done|].
    unfold field_result_of. by rewrite Hraise.
  - rewrite He, Hf, Hn, <- !length_app.
    rewrite <- (length_fmap fst (priority_fields cfg ++ extra_fields cfg)).
    apply Permutation_length. rewrite <- app_assoc.
    apply names_where_partition.
Qed.

Lemma extract_fields_isolates_field_failures_witness :
  exists r,
    Stub.run "<h1>Acme</h1>"
      [("bad", "h1["); ("name", "h1")] [("worse", "h2["); ("title", "h1")]
    = Return r
    /\ failed (fields_status r) = ["bad"; "worse"]
    /\ extracted (fields_status r) = ["name"; "title"].
Proof.
  destruct (extract_fields_isolates_field_failures Stub.engine
              "2024-01-01T00:00:00+00:00" "<h1>Acme</h1>"
              (Stub.site [("bad", "h1["); ("name", "h1")]
                         [("worse", "h2["); ("title", "h1")])
              "<h1>Acme</h1>" eq_refl)
    as (r & Hr & _ & Hf & He & _).
  exists r. split; [exact Hr|]. rewrite Hf, He. split; vm_compute; reflexivity.
Defined.

(** ** The partition of the field names *)

(** C2, as the claim states it, fails: with the names distinct inside each
    section, a name configured in both sections is processed once per
    section and lands in [extracted] and in [not_found]. *)
Lemma partition_fails_on_shared_name :
  ~ (forall (E : Engine) (ts html : string) (cfg : SiteConfig) r,
       NoDup (priority_fields cfg).*1 ->
       NoDup (extra_fields cfg).*1 ->
       ExtractionEngine.extract_fields E ts html cfg = Return r ->
       forall name, name ∈ configured_names cfg ->
                    in_exactly_one name (fields_status r)).
Proof.
  intros H.
  pose (cfg := Stub.site [("a", "h1")] [("a", "h2")]).
  destruct (extract_fields_parsed Stub.engine "t" "<h1>Acme</h1>" cfg
              "<h1>Acme</h1>" eq_refl)
    as (r & Hr & He & Hf & Hn & _).
  assert (extracted (fields_status r) = ["a"]) as He'
    by (rewrite He; vm_compute; reflexivity).
  assert (not_found (fields_status r) = ["a"]) as Hn'
    by (rewrite Hn; vm_compute; reflexivity).
  specialize (H Stub.engine "t" "<h1>Acme</h1>" cfg r).
  assert (NoDup ["a"]) as Hnd by (apply NoDup_singleton).
  specialize (H Hnd Hnd Hr "a").
  unfold in_exactly_one in H. rewrite He', Hn' in H.
  destruct H as [(_ & _ & H)|[(H & _)|(H & _)]].
  - vm_compute. left.
  - apply H. left.
  - apply H. left.
  - apply H. left.
Qed.

(** C2, amended. With the configured names distinct across both sections,
    every configured name is, after a completed call, in exactly one of
    [extracted], [failed] and [not_found]. *)
Theorem configured_name_in_exactly_one_status
  (E : Engine) (ts html : string) (cfg : SiteConfig) (r : ExtractionResult) :
  NoDup (configured_names cfg) ->
  ExtractionEngine.extract_fields E ts html cfg = Return r ->
  forall name, name ∈ configured_names cfg ->
               in_exactly_one name (fields_status r).
Proof.
  intros Hnd Hr name Hin.
  destruct (extract_fields_returned E ts html cfg r Hr) as [doc Hdoc].
  destruct (extract_fields_parsed E ts html cfg doc Hdoc)
    as (r' & Hr' & He & Hf & Hn & _).
  rewrite Hr in Hr'. injection Hr' as <-.
  pose proof (names_where_partition E doc
                (priority_fields cfg ++ extra_fields cfg)) as Hperm.
  rewrite <- He, <- Hf, <- Hn, fmap_app in Hperm.
  fold (configured_names cfg) in Hperm.
  rewrite <- Hperm in Hnd, Hin.
  apply NoDup_app in Hnd as (_ & Hef & Hnd).
  apply NoDup_app in Hnd as (_ & Hfn & _).
  unfold in_exactly_one.
  apply elem_of_app in Hin as [Hin|Hin]; [|apply elem_of_app in Hin as [Hin|Hin]].
  - left. pose proof (Hef name Hin) as Hno.
    rewrite elem_of_app in Hno. tauto.
  - right. left. pose proof (Hfn name Hin) as Hno.
    split; [|tauto]. intros Hx. apply (Hef name Hx). apply elem_of_app. tauto.
  - right. right. split; [|split; [|done]].
    + intros Hx. apply (Hef name Hx). apply elem_of_app. tauto.
    + intros Hx. apply (Hfn name Hx Hin).
Qed.

Lemma configured_name_in_exactly_one_status_witness :
  exists r,
    Stub.run "<h1>Acme</h1>" [("bad", "h1["); ("name", "h1")] [("phone", "h2")]
    = Return r
    /\ in_exactly_one "name" (fields_status r)
    /\ in_exactly_one "bad" (fields_status r)
    /\ in_exactly_one "phone" (fields_status r).
Proof.
  pose (cfg := Stub.site [("bad", "h1["); ("name", "h1")] [("phone", "h2")]).
  destruct (extract_fields_parsed Stub.engine "2024-01-01T00:00:00+00:00"
              "<h1>Acme</h1>" cfg "<h1>Acme</h1>" eq_refl) as (r & Hr & _).
  exists r. split; [exact Hr|].
  assert (NoDup (configured_names cfg)) as Hnd.
  { apply (bool_decide_unpack (NoDup ["bad"; "name"; "phone"])).
    vm_compute. exact I. }
  pose proof (configured_name_in_exactly_one_status Stub.engine _ _ cfg r Hnd Hr)
    as H.
  repeat split; apply H; unfold configured_names; cbn; set_solver.
Defined.

(** ** Success and the error field *)

(** C3. After a completed call the success flag is true exactly when
    [extracted] is not empty, that is, when at least one field of either
    section was extracted; the metadata carries the same flag, and a false
    flag comes with the failure reason [no_fields_extracted]. *)
Theorem success_iff_some_field_extracted
  (E : Engine) (ts html : string) (cfg : SiteConfig) (r : ExtractionResult) :
  ExtractionEngine.extract_fields E ts html cfg = Return r ->
  (success r = true <-> extracted (fields_status r) <> [])
  /\ (success r = false ->
      failure_reason (metadata r) = Some "no_fields_extracted")
  /\ md_success (metadata r) = success r
  /\ (forall doc, BeautifulSoup E html = Return doc ->
        (success r = true <->
         exists name rule,
           (name, rule) ∈ priority_fields cfg ++ extra_fields cfg
           /\ is_extracted (field_result_of doc rule) = true)).
Proof.
  intros Hr.
  destruct (extract_fields_returned E ts html cfg r Hr) as [doc Hdoc].
  destruct (extract_fields_parsed E ts html cfg doc Hdoc)
    as (r' & Hr' & He & _ & _ & _ & _ & Hs & Hm & Hreason & _).
  rewrite Hr in Hr'. injection Hr' as <-.
  assert (success r = true <-> extracted (fields_status r) <> []) as Hiff.
  { rewrite Hs. destruct (extracted (fields_status r)); cbn; split; try done. }
  split; [exact Hiff|]. split; [|split; [exact Hm|]].
  - intros Hfalse. by rewrite Hreason, Hfalse.
  - intros doc' Hdoc'. rewrite Hdoc in Hdoc'. injection Hdoc' as <-.
    rewrite Hiff, He. split.
    + intros Hne.
      destruct (names_where is_extracted doc
                  (priority_fields cfg ++ extra_fields cfg))
        as [|name l] eqn:Hl; [done|].
      assert (name ∈ names_where is_extracted doc
                (priority_fields cfg ++ extra_fields cfg)) as Hin
        by (rewrite Hl; left).
      apply elem_of_names_where in Hin as (rule & Hin & Hx). eauto.
    + intros (name & rule & Hin & Hx) Hnil.
      assert (name ∈ names_where is_extracted doc
                (priority_fields cfg ++ extra_fields cfg)) as Hin'
        by (apply elem_of_names_where; eauto).
      rewrite Hnil in Hin'. by apply elem_of_nil in Hin'.
Qed.

Lemma success_iff_some_field_extracted_witness :
  exists r,
    Stub.run "<h1>Acme</h1>" [("phone", "h2")] [("name", "h1")] = Return r
    /\ (success r = true <-> extracted (fields_status r) <> [])
    /\ (success r = false ->
        failure_reason (metadata r) = Some "no_fields_extracted").
Proof.
  destruct (extract_fields_parsed Stub.engine "2024-01-01T00:00:00+00:00"
              "<h1>Acme</h1>" (Stub.site [("phone", "h2")] [("name", "h1")])
              "<h1>Acme</h1>" eq_refl) as (r & Hr & _).
  exists r. split; [exact Hr|].
  destruct (success_iff_some_field_extracted Stub.engine _ _ _ r Hr)
    as (H1 & H2 & _).
  split; [exact H1|exact H2].
Defined.

(** C9. A call either returns a result whose [error] is [None], or raises
    [ParsingError], and it raises only when the page did not parse. *)
Theorem extract_fields_error_is_None
  (E : Engine) (ts html : string) (cfg : SiteConfig) :
  match ExtractionEngine.extract_fields E ts html cfg with
  | Return r => error r = None
  | Raise e =>
      is_ParsingError e = true
      /\ exists e', BeautifulSoup E html = Raise e'
  end.
Proof.
  destruct (BeautifulSoup E html) as [doc|e] eqn:Hdoc.
  - destruct (extract_fields_parsed E ts html cfg doc Hdoc)
      as (r & -> & H). apply H.
  - rewrite (extract_fields_unparsed E ts html cfg e Hdoc). eauto.
Qed.

(** ** A name configured in both sections *)

(** C10. A name configured in the priority and in the extra section is
    processed once per section.  Its entry in [priority_fields] comes from
    the priority rule alone and its entry in [extra_metadata] from the extra
    rule alone.  The name is appended to a status list once per section, to
    the list of each result: it occurs twice in the three lists together,
    in two different lists or twice in one. *)
Theorem shared_name_is_processed_per_section
  (E : Engine) (ts html : string) (cfg : SiteConfig) (doc : soup E)
  (name rule_p rule_x : string) :
  BeautifulSoup E html = Return doc ->
  NoDup (priority_fields cfg).*1 ->
  NoDup (extra_fields cfg).*1 ->
  (name, rule_p) ∈ priority_fields cfg ->
  (name, rule_x) ∈ extra_fields cfg ->
  exists r,
    ExtractionEngine.extract_fields E ts html cfg = Return r
    /\ res_priority_fields r !! name
       = match field_result_of doc rule_p with
         | Extracted v => Some v
         | _ => None
         end
    /\ extra_metadata r !! name
       = match field_result_of doc rule_x with
         | Extracted v => Some v
         | _ => None
         end
    /\ occurrences name (extracted (fields_status r))
       = (Nat.b2n (is_extracted (field_result_of doc rule_p))
          + Nat.b2n (is_extracted (field_result_of doc rule_x)))%nat
    /\ occurrences name (failed (fields_status r))
       = (Nat.b2n (is_failed (field_result_of doc rule_p))
          + Nat.b2n (is_failed (field_result_of doc rule_x)))%nat
    /\ occurrences name (not_found (fields_status r))
       = (Nat.b2n (is_not_found (field_result_of doc rule_p))
          + Nat.b2n (is_not_found (field_result_of doc rule_x)))%nat
    /\ (occurrences name (extracted (fields_status r))
        + occurrences name (failed (fields_status r))
        + occurrences name (not_found (fields_status r)) = 2)%nat.
Proof.
  intros Hdoc Hndp Hndx Hp Hx.
  destruct (extract_fields_parsed E ts html cfg doc Hdoc)
    as (r & Hr & He & Hf & Hn & Hprio & [st Hextra] & _).
  exists r. split; [exact Hr|].
  assert (forall p,
    occurrences name
      (names_where p doc (priority_fields cfg ++ extra_fields cfg))
    = (Nat.b2n (p (field_result_of doc rule_p))
       + Nat.b2n (p (field_result_of doc rule_x)))%nat) as Hocc.
  { intros p. rewrite names_where_app, occurrences_app.
    by rewrite (occurrences_names_where E p doc _ name rule_p Hndp Hp),
               (occurrences_names_where E p doc _ name rule_x Hndx Hx). }
  rewrite He, Hf, Hn, !Hocc, Hprio, Hextra.
  rewrite (extract_loop_lookup E doc _ name rule_p _ _ Hndp Hp).
  rewrite (extract_loop_lookup E doc _ name rule_x _ _ Hndx Hx).
  rewrite lookup_empty.
  repeat split.
  by destruct (field_result_of doc rule_p), (field_result_of doc rule_x).
Qed.

Lemma shared_name_is_processed_per_section_witness :
  exists r,
    Stub.run "<h1>Acme</h1><p>3</p>" [("a", "h1")] [("a", "p")] = Return r
    /\ res_priority_fields r !! "a" = Some (VStr "Acme")
    /\ extra_metadata r !! "a" = Some (VInt 3)
    /\ occurrences "a" (extracted (fields_status r)) = 2%nat.
Proof.
  assert (NoDup ["a"]) as Hnd by apply NoDup_singleton.
  destruct (shared_name_is_processed_per_section Stub.engine
              "2024-01-01T00:00:00+00:00" "<h1>Acme</h1><p>3</p>"
              (Stub.site [("a", "h1")] [("a", "p")]) "<h1>Acme</h1><p>3</p>"
              "a" "h1" "p" eq_refl Hnd Hnd
              ltac:(left) ltac:(left))
    as (r & Hr & Hp & Hx & He & _).
  exists r. split; [exact Hr|]. rewrite Hp, Hx, He.
  repeat split; vm_compute; reflexivity.
Defined.

(** A name of both sections in two different status lists. *)
Example shared_name_in_two_lists :
  exists r,
    Stub.run "<h1>Acme</h1>" [("a", "h1")] [("a", "h2")] = Return r
    /\ extracted (fields_status r) = ["a"]
    /\ not_found (fields_status r) = ["a"]
    /\ res_priority_fields r !! "a" = Some (VStr "Acme")
    /\ extra_metadata r !! "a" = None.
Proof. eexists. split; [vm_compute; reflexivity|]. repeat split. Qed.

(** A name of both sections twice in one status list. *)
Example shared_name_twice_in_one_list :
  exists r,
    Stub.run "<h1>Acme</h1>" [("a", "h1")] [("a", "h1")] = Return r
    /\ extracted (fields_status r) = ["a"; "a"].
Proof. eexists. split; [vm_compute; reflexivity|]. repeat split. Qed.

(** ** Trimming *)

Section Strip.
Import PyStr.

Variable p : ascii -> bool.

Lemma lstrip_by_empty (s : string) :
  lstrip_by p s = "" <-> all_chars p s = true.
Proof.
  induction s as [|c s IH]; cbn; [done|].
  destruct (p c); cbn; [exact IH|]. split; discriminate.
Qed.

Lemma rstrip_by_empty (s : string) :
  rstrip_by p s = "" <-> all_chars p s = true.
Proof.
  induction s as [|c s IH]; cbn; [done|].
  destruct (rstrip_by p s) eqn:Hr.
  - destruct (p c); cbn.
    + split; [intros _; by apply IH|done].
    + split; discriminate.
  - split; [discriminate|].
    intros [_ Hs]%andb_prop. apply IH in Hs. discriminate.
Qed.

Lemma all_chars_lstrip_by (s : string) :
  all_chars p (lstrip_by p s) = all_chars p s.
Proof.
  induction s as [|c s IH]; cbn; [done|].
  destruct (p c) eqn:Hc; cbn; [exact IH|]. by rewrite Hc.
Qed.

Lemma strip_by_empty (s : string) :
  strip_by p s = "" <-> all_chars p s = true.
Proof.
  unfold strip_by. by rewrite rstrip_by_empty, all_chars_lstrip_by.
Qed.

(** Trimming keeps every character outside the trimmed set. *)
Lemma contains_lstrip_by (c : ascii) (s : string) :
  p c = false -> contains c s = true -> contains c (lstrip_by p s) = true.
Proof.
  intros Hc. induction s as [|d s IH]; cbn; [done|].
  destruct (p d) eqn:Hd; [|done].
  destruct (Ascii.eqb_spec d c) as [->|_]; [congruence|]. exact IH.
Qed.

Lemma contains_rstrip_by (c : ascii) (s : string) :
  p c = false -> contains c s = true -> contains c (rstrip_by p s) = true.
Proof.
  intros Hc. induction s as [|d s IH]; cbn; [done|].
  destruct (Ascii.eqb_spec d c) as [->|_]; cbn.
  - intros _. destruct (rstrip_by p s); [by rewrite Hc; cbn; rewrite Ascii.eqb_refl|].
    cbn. by rewrite Ascii.eqb_refl.
  - intros Hs. specialize (IH Hs).
    destruct (rstrip_by p s); [done|]. cbn.
    destruct (Ascii.eqb d c); [done|]. exact IH.
Qed.

Lemma contains_strip_by (c : ascii) (s : string) :
  p c = false -> contains c s = true -> contains c (strip_by p s) = true.
Proof.
  intros Hc Hs. unfold strip_by.
  by apply contains_rstrip_by, contains_lstrip_by.
Qed.

End Strip.

Lemma contains_truthy (c : ascii) (s : string) :
  PyStr.contains c s = true -> PyStr.truthy s = true.
Proof. by destruct s. Qed.

(** ** Rule classification *)

(** C5, as the claim states it, fails: a rule of one space is not empty, so
    the guard of [parse_rule] lets it through, and it is classified as a
    CSS selector. *)
Lemma whitespace_rule_is_not_unknown :
  ~ (forall rule : string,
       PyStr.all_chars PyStr.is_space rule = true ->
       RuleParser.parse_rule rule = ("unknown", rule)
       /\ (RuleParser.parse_rule rule).1 <> "css").
Proof.
  intros H. destruct (H " " eq_refl) as [H1 _].
  vm_compute in H1. discriminate H1.
Qed.

(** C5, amended. Of the rules that are empty or consist only of whitespace,
    the empty rule is classified as unknown, with the rule as pattern, and
    every other one as a CSS selector with the empty pattern. *)
Theorem blank_rule_classification (rule : string) :
  PyStr.all_chars PyStr.is_space rule = true ->
  RuleParser.parse_rule rule
  = if PyStr.truthy rule then ("css", "") else ("unknown", rule).
Proof.
  intros Hblank. apply strip_by_empty in Hblank.
  unfold RuleParser.parse_rule. fold (PyStr.strip rule) in Hblank.
  rewrite Hblank. by destruct rule.
Qed.

Lemma blank_rule_classification_witness :
  RuleParser.parse_rule "" = ("unknown", "")
  /\ RuleParser.parse_rule "  " = ("css", "").
Proof.
  split.
  - exact (blank_rule_classification "" eq_refl).
  - exact (blank_rule_classification "  " eq_refl).
Defined.

(** C8, as the claim states it, fails: the rule ["/"] starts and ends with
    a slash, and [parse_rule] asks nothing of its length, so it is
    classified as a regex and not as a CSS selector. *)
Lemma single_slash_is_regex :
  ~ (forall rule : string,
       let t := PyStr.strip rule in
       (RuleParser.parse_rule rule).1 = "regex"
       <-> (rule <> ""
            /\ PyStr.startswith t "//" = false
            /\ ((PyStr.startswith t "/" = true
                 /\ PyStr.endswith t "/" = true
                 /\ (2 <= String.length t)%nat)
                \/ PyStr.startswith t "^" = true))).
Proof.
  intros H. destruct (H "/") as [H1 _].
  destruct (H1 eq_refl) as (_ & _ & [(_ & _ & Hlen)|Hcaret]).
  - vm_compute in Hlen. lia.
  - vm_compute in Hcaret. discriminate Hcaret.
Qed.

(** C8, amended. A rule is classified as a regex exactly when it is not
    empty, its trimmed value does not start with two slashes, and the
    trimmed value starts and ends with a slash, whatever its length, or
    starts with a caret; the pattern is then the trimmed value.  The rule
    ["/"] is classified as a regex. *)
Theorem parse_rule_regex_iff (rule : string) :
  let t := PyStr.strip rule in
  ((RuleParser.parse_rule rule).1 = "regex"
   <-> (rule <> ""
        /\ PyStr.startswith t "//" = false
        /\ ((PyStr.startswith t "/" = true /\ PyStr.endswith t "/" = true)
            \/ PyStr.startswith t "^" = true)))
  /\ ((RuleParser.parse_rule rule).1 = "regex" ->
      (RuleParser.parse_rule rule).2 = t)
  /\ RuleParser.parse_rule "/" = ("regex", "/").
Proof.
  cbn zeta. unfold RuleParser.parse_rule.
  split; [|split; [|reflexivity]].
  - destruct rule as [|c rule]; cbn [PyStr.truthy negb].
    { split; [discriminate|]. by intros [? _]. }
    destruct (PyStr.startswith _ "//"); cbn [fst].
    { split; [discriminate|]. by intros (_ & ? & _). }
    destruct (PyStr.startswith _ "/"), (PyStr.endswith _ "/"),
      (PyStr.startswith _ "^"); cbn [andb orb fst];
      split; try discriminate; try (intros _; split; [done|split; [done|tauto]]);
      intros (_ & _ & [[? ?]|?]); done.
  - destruct rule as [|c rule]; cbn [PyStr.truthy negb]; [discriminate|].
    destruct (PyStr.startswith _ "//"); cbn [fst]; [discriminate|].
    destruct (_ || _); cbn; [done|discriminate].
Qed.

Lemma parse_rule_regex_iff_witness :
  RuleParser.parse_rule " /[A-Z][a-z]+/ " = ("regex", "/[A-Z][a-z]+/")
  /\ (RuleParser.parse_rule "^Title:").1 = "regex".
Proof.
  split.
  - destruct (parse_rule_regex_iff " /[A-Z][a-z]+/ ") as ([_ Hkind] & Hpat & _).
    assert ((RuleParser.parse_rule " /[A-Z][a-z]+/ ").1 = "regex") as Hk.
    { apply Hkind. split; [discriminate|]. split; [reflexivity|].
      left. split; reflexivity. }
    specialize (Hpat Hk).
    destruct (RuleParser.parse_rule " /[A-Z][a-z]+/ ") as [kind pat].
    cbn [fst snd] in Hk, Hpat. rewrite Hk, Hpat. reflexivity.
  - apply (proj1 (parse_rule_regex_iff "^Title:")).
    split; [discriminate|]. split; [reflexivity|]. right. reflexivity.
Defined.

(** ** The CSS strategy *)

(** A rule classified as a CSS selector is not empty. *)
Lemma parse_rule_css_truthy (rule pattern : string) :
  RuleParser.parse_rule rule = ("css", pattern) -> PyStr.truthy rule = true.
Proof. destruct rule; [discriminate|done]. Qed.

(** C7. For a rule classified as a CSS selector whose query returns the
    matching elements, the extractor takes the trimmed text of each, drops
    the empty ones, and returns nothing found when none is left, the text
    when one is left, and the texts joined by a comma and a space when
    more are left; it does not raise. *)
Theorem css_rule_joins_matching_texts
  (E : Engine) (doc : soup E) (rule pattern : string) (elements : list (tag E)) :
  RuleParser.parse_rule rule = ("css", pattern) ->
  select E doc pattern = Return elements ->
  let survivors :=
    filter (fun t => PyStr.truthy t = true) (get_text E <$> elements) in
  ExtractionEngine._extract_single_field E doc rule
  = Return match survivors with
           | [] => None
           | [t] => Some t
           | _ => Some (PyStr.join ", " survivors)
           end.
Proof.
  intros Hrule Hsel survivors.
  unfold ExtractionEngine._extract_single_field.
  rewrite (parse_rule_css_truthy rule pattern Hrule), Hrule. cbn [negb].
  cbn [String.eqb Ascii.eqb Bool.eqb].
  unfold ExtractionEngine._extract_css. rewrite Hsel.
  case_bool_decide as Hnil.
  - subst elements. reflexivity.
  - fold survivors. by destruct survivors as [|t [|t' l]].
Qed.

Lemma css_rule_joins_matching_texts_witness :
  ExtractionEngine._extract_single_field Stub.engine
    "<span>Python</span><span> </span><span>Go</span>" " span "
  = Return (Some "Python, Go").
Proof.
  exact (css_rule_joins_matching_texts Stub.engine
           "<span>Python</span><span> </span><span>Go</span>" " span " "span"
           [("span", "Python"); ("span", " "); ("span", "Go")]
           eq_refl eq_refl).
Defined.

(** A CSS query that raises is reported as [ExtractionError]. *)
Lemma css_rule_query_error
  (E : Engine) (doc : soup E) (rule pattern : string) (e : exn) :
  RuleParser.parse_rule rule = ("css", pattern) ->
  select E doc pattern = Raise e ->
  ExtractionEngine._extract_single_field E doc rule
  = Raise (ExtractionError ("CSS selector error: " +:+ exn_str e)).
Proof.
  intros Hrule Hsel. unfold ExtractionEngine._extract_single_field.
  rewrite (parse_rule_css_truthy rule pattern Hrule), Hrule. cbn [negb].
  cbn [String.eqb Ascii.eqb Bool.eqb].
  unfold ExtractionEngine._extract_css. by rewrite Hsel.
Qed.

(** ** Type inference *)

Section Inference.
Import PyStr TypeConverter.

(** C6. An input whose trimmed, lower-cased form is [yes], [true] or [1]
    is inferred as the boolean true, and one whose form is [no], [false]
    or [0] as the boolean false.  The boolean conversion comes first: the
    input [1], which the numeric conversion reads as the integer 1, is
    inferred as true, and [0] as false. *)
Theorem boolean_words_win_over_numbers (s : string) :
  (lower (strip s) ∈ ["yes"; "true"; "1"] ->
   infer_and_convert s = VBool true)
  /\ (lower (strip s) ∈ ["no"; "false"; "0"] ->
      infer_and_convert s = VBool false)
  /\ (infer_and_convert "1" = VBool true /\ convert_to_number "1" = NInt 1)
  /\ (infer_and_convert "0" = VBool false /\ convert_to_number "0" = NInt 0).
Proof.
  split; [|split; [|split; split; vm_compute; reflexivity]].
  - intros H. unfold infer_and_convert.
    destruct (strip s) as [|c t] eqn:Hs.
    { cbn in H. rewrite !elem_of_cons, elem_of_nil in H.
      destruct H as [H|[H|[H|[]]]]; discriminate H. }
    cbn [truthy negb]. unfold convert_to_bool. rewrite Hs.
    by rewrite bool_decide_eq_true_2.
  - intros H. unfold infer_and_convert.
    destruct (strip s) as [|c t] eqn:Hs.
    { cbn in H. rewrite !elem_of_cons, elem_of_nil in H.
      destruct H as [H|[H|[H|[]]]]; discriminate H. }
    cbn [truthy negb]. unfold convert_to_bool. rewrite Hs.
    rewrite !elem_of_cons, elem_of_nil in H.
    destruct H as [->|[->|[->|[]]]]; reflexivity.
Qed.

Lemma boolean_words_win_over_numbers_witness :
  infer_and_convert " YES " = VBool true
  /\ infer_and_convert "False" = VBool false.
Proof.
  split.
  - apply (proj1 (boolean_words_win_over_numbers " YES ")).
    vm_compute. left.
  - apply (proj1 (proj2 (boolean_words_win_over_numbers "False"))).
    vm_compute. right. left.
Defined.

(** *** Strings with a separator are neither booleans nor numbers *)

Lemma separator_cases (c : ascii) :
  c ∈ default_separators ->
  c = ","%char \/ c = ";"%char \/ c = "|"%char.
Proof.
  unfold default_separators. rewrite !elem_of_cons, elem_of_nil. tauto.
Qed.

Lemma first_separator_Some (v : string) (sep : ascii) :
  first_separator v = Some sep ->
  sep ∈ default_separators /\ contains sep v = true.
Proof.
  intros [Hin Hc]%find_some. split; [|done]. by apply list_elem_of_In.
Qed.

Lemma contains_lower (c : ascii) (s : string) :
  lower_char c = c -> contains c s = true -> contains c (lower s) = true.
Proof.
  intros Hc. induction s as [|d s IH]; cbn; [done|].
  destruct (Ascii.eqb_spec d c) as [->|_]; cbn.
  - by rewrite Hc, Ascii.eqb_refl.
  - intros Hs. rewrite (IH Hs). apply orb_true_r.
Qed.

Lemma contains_differ (c : ascii) (s t : string) :
  contains c s = true -> contains c t = false -> String.eqb s t = false.
Proof.
  intros Hs Ht. destruct (String.eqb_spec s t) as [->|_]; congruence.
Qed.

Lemma convert_to_bool_separator (c : ascii) (s : string) :
  c ∈ default_separators -> contains c (strip s) = true ->
  convert_to_bool s = inr s.
Proof.
  intros Hc Hs. unfold convert_to_bool.
  assert (contains c (lower (strip s)) = true) as Hl.
  { apply contains_lower; [|done].
    apply separator_cases in Hc as [->|[->| ->]]; reflexivity. }
  rewrite !bool_decide_eq_false_2; [done| |].
  all: rewrite !elem_of_cons, elem_of_nil; intros [H|[H|[H|[]]]];
    rewrite H in Hl;
    apply separator_cases in Hc as [->|[->| ->]]; discriminate Hl.
Qed.

Lemma int_digits_rejects (c : ascii) (s : string) :
  is_digit c = false -> Ascii.eqb c "_" = false ->
  contains c s = true ->
  forall b acc n, int_digits s b acc n = None.
Proof.
  intros Hd Hu. induction s as [|d s IH]; cbn [contains int_digits]; [done|].
  intros Hc b acc n. destruct (Ascii.eqb_spec d c) as [->|_].
  - by rewrite Hd, Hu.
  - cbn in Hc. destruct (is_digit d); [by apply IH|].
    destruct (Ascii.eqb d "_"); [|done]. destruct b; [by apply IH|done].
Qed.

Lemma int_unsigned_rejects (c : ascii) (s : string) :
  is_digit c = false -> Ascii.eqb c "_" = false ->
  contains c s = true -> int_unsigned s = None.
Proof.
  intros Hd Hu Hc. unfold int_unsigned.
  by rewrite (int_digits_rejects c s Hd Hu Hc).
Qed.

Lemma py_int_separator (c : ascii) (s : string) :
  c ∈ default_separators -> contains c s = true -> py_int s = None.
Proof.
  intros Hsep Hc.
  assert (is_space c = false /\ is_digit c = false /\ Ascii.eqb c "_" = false
          /\ Ascii.eqb "+" c = false /\ Ascii.eqb "-" c = false)
    as (Hsp & Hd & Hu & Hplus & Hminus).
  { apply separator_cases in Hsep as [->|[->| ->]]; repeat split. }
  apply (contains_strip_by is_space c s Hsp) in Hc. fold (strip s) in Hc.
  unfold py_int. destruct (strip s) as [|d t]; [done|].
  destruct (Ascii.eqb_spec d "+") as [->|_].
  { cbn [contains] in Hc. rewrite Hplus in Hc.
    by rewrite (int_unsigned_rejects c t). }
  destruct (Ascii.eqb_spec d "-") as [->|_].
  { cbn [contains] in Hc. rewrite Hminus in Hc.
    by rewrite (int_unsigned_rejects c t). }
  by apply (int_unsigned_rejects c).
Qed.

Lemma remove_underscores_contains (c : ascii) (s : string) :
  Ascii.eqb c "_" = false ->
  forall prev t,
    remove_underscores prev s = Some t ->
    contains c s = true -> contains c t = true.
Proof.
  intros Hu. induction s as [|d s IH]; intros prev t; cbn; [done|].
  destruct (Ascii.eqb_spec d "_") as [->|Hd].
  - rewrite Ascii.eqb_sym, Hu. cbn.
    destruct (prev_is is_digit prev); [apply IH|done].
  - destruct (_ && _); [done|].
    destruct (remove_underscores (Some d) s) as [t'|] eqn:Ht; [|done].
    cbn. intros [= <-]. cbn.
    destruct (Ascii.eqb d c); [done|]. cbn. by apply (IH (Some d)).
Qed.

Lemma skip_digits_contains (c : ascii) (s : string) :
  is_digit c = false ->
  contains c s = true -> contains c (skip_digits s).2 = true.
Proof.
  intros Hd. induction s as [|d s IH]; cbn; [done|].
  destruct (is_digit d) eqn:Hdd; cbn; [|done].
  destruct (Ascii.eqb_spec d c) as [->|_]; [congruence|]. exact IH.
Qed.

Lemma skip_sign_contains (c : ascii) (s : string) :
  Ascii.eqb "+" c = false -> Ascii.eqb "-" c = false ->
  contains c s = true -> contains c (skip_sign s) = true.
Proof.
  intros Hplus Hminus. destruct s as [|d s]; [done|].
  cbn [skip_sign contains].
  destruct (Ascii.eqb_spec d "+") as [->|_]; cbn [orb].
  { by rewrite Hplus. }
  destruct (Ascii.eqb_spec d "-") as [->|_]; cbn [orb contains]; [|done].
  by rewrite Hminus.
Qed.

Lemma skip_fraction_contains (c : ascii) (s : string) :
  is_digit c = false -> Ascii.eqb "." c = false ->
  contains c s = true -> contains c (skip_fraction s).2 = true.
Proof.
  intros Hd Hdot. destruct s as [|d s]; [done|]. unfold skip_fraction.
  destruct (Ascii.eqb_spec d ".") as [->|_]; [|done].
  cbn [contains]. rewrite Hdot. by apply skip_digits_contains.
Qed.

Lemma skip_exponent_contains (c : ascii) (s : string) :
  is_digit c = false -> Ascii.eqb "+" c = false -> Ascii.eqb "-" c = false ->
  Ascii.eqb (lower_char c) "e" = false ->
  contains c s = true -> contains c (skip_exponent s) = true.
Proof.
  intros Hd Hplus Hminus He. destruct s as [|d s]; [done|].
  unfold skip_exponent.
  destruct (Ascii.eqb (lower_char d) "e") eqn:Hde; [|done].
  destruct (_ =? 0)%nat; [done|]. cbn [contains].
  destruct (Ascii.eqb_spec d c) as [->|_]; [congruence|]. cbn.
  intros Hs. by apply skip_digits_contains, skip_sign_contains.
Qed.

Lemma float_literal_separator (c : ascii) (s : string) :
  c ∈ default_separators -> contains c s = true -> float_literal s = false.
Proof.
  intros Hsep Hc.
  assert (is_space c = false /\ is_digit c = false /\ Ascii.eqb c "_" = false
          /\ Ascii.eqb "+" c = false /\ Ascii.eqb "-" c = false
          /\ Ascii.eqb "." c = false /\ Ascii.eqb (lower_char c) "e" = false
          /\ lower_char c = c
          /\ contains c "inf" = false /\ contains c "infinity" = false
          /\ contains c "nan" = false)
    as (Hsp & Hd & Hu & Hplus & Hminus & Hdot & He & Hlow & Hi1 & Hi2 & Hi3).
  { apply separator_cases in Hsep as [->|[->| ->]]; repeat split. }
  apply (contains_strip_by is_space c s Hsp) in Hc. fold (strip s) in Hc.
  unfold float_literal.
  destruct (remove_underscores None (strip s)) as [t|] eqn:Ht; [|done].
  apply (remove_underscores_contains c _ Hu _ _ Ht) in Hc.
  apply (skip_sign_contains c t Hplus Hminus) in Hc.
  pose proof (contains_lower c _ Hlow Hc) as Hl.
  cbn zeta.
  rewrite (contains_differ c _ "inf" Hl Hi1),
    (contains_differ c _ "infinity" Hl Hi2), (contains_differ c _ "nan" Hl Hi3).
  cbn [orb]. unfold decimal_literal. cbn zeta.
  destruct (_ =? 0)%nat; [done|].
  apply (skip_digits_contains c _ Hd) in Hc.
  apply (skip_fraction_contains c _ Hd Hdot) in Hc.
  apply (skip_exponent_contains c _ Hd Hplus Hminus He) in Hc.
  by rewrite (contains_truthy c _ Hc).
Qed.

Lemma convert_to_number_separator (c : ascii) (s : string) :
  c ∈ default_separators -> contains c (strip s) = true ->
  convert_to_number s = NStr (strip s).
Proof.
  intros Hsep Hc. unfold convert_to_number.
  destruct (negb (truthy (strip s))); [done|].
  destruct (negb (contains "." (strip s))).
  - by rewrite (py_int_separator c _ Hsep Hc).
  - unfold py_float. by rewrite (float_literal_separator c _ Hsep Hc).
Qed.

(** The loop of [convert_to_list] returns from the first separator that is
    present and leaves exactly one piece, with that piece. *)
Lemma convert_to_list_single_piece (s : string) (sep : ascii) (piece : string) :
  first_separator (strip s) = Some sep ->
  pieces sep (strip s) = [piece] ->
  convert_to_list s default_separators = inr piece.
Proof.
  intros Hfirst Hpieces.
  destruct (first_separator_Some _ _ Hfirst) as [_ Hc].
  unfold convert_to_list. rewrite (contains_truthy _ _ Hc). cbn [negb].
  unfold first_separator, default_separators in *. cbn [find] in Hfirst.
  cbn [convert_to_list_loop].
  destruct (contains "," (strip s)).
  { injection Hfirst as <-. fold (pieces "," (strip s)). by rewrite Hpieces. }
  destruct (contains ";" (strip s)).
  { injection Hfirst as <-. fold (pieces ";" (strip s)). by rewrite Hpieces. }
  destruct (contains "|" (strip s)); [|done].
  injection Hfirst as <-. fold (pieces "|" (strip s)). by rewrite Hpieces.
Qed.

End Inference.

(** C4, as the claim states it, fails: on ["a,"] the list conversion
    yields the single piece ["a"], which is not a list, so
    [infer_and_convert] goes on to its last step and returns the trimmed
    input ["a,"]. *)
Lemma single_piece_is_not_what_infer_returns :
  ~ (forall (s : string) (sep : ascii) (piece : string),
       TypeConverter.first_separator (PyStr.strip s) = Some sep ->
       TypeConverter.pieces sep (PyStr.strip s) = [piece] ->
       TypeConverter.infer_and_convert s = VStr piece).
Proof.
  intros H. specialize (H "a," ","%char "a" eq_refl eq_refl).
  vm_compute in H. discriminate H.
Qed.

(** C4, amended. For an input in which a separator is present and whose
    split on the first present separator leaves exactly one non-empty
    trimmed piece, [infer_and_convert] returns the trimmed input as a
    string, separator included. *)
Theorem single_piece_input_is_inferred_as_trimmed_string
  (s : string) (sep : ascii) (piece : string) :
  TypeConverter.first_separator (PyStr.strip s) = Some sep ->
  TypeConverter.pieces sep (PyStr.strip s) = [piece] ->
  TypeConverter.infer_and_convert s = VStr (PyStr.strip s).
Proof.
  intros Hfirst Hpieces.
  destruct (first_separator_Some _ _ Hfirst) as [Hsep Hc].
  unfold TypeConverter.infer_and_convert.
  rewrite (contains_truthy _ _ Hc). cbn [negb].
  rewrite (convert_to_bool_separator sep s Hsep Hc).
  rewrite (convert_to_number_separator sep s Hsep Hc).
  by rewrite (convert_to_list_single_piece s sep piece Hfirst Hpieces).
Qed.

Lemma single_piece_input_is_inferred_as_trimmed_string_witness :
  TypeConverter.infer_and_convert " a, " = VStr "a,".
Proof.
  exact (single_piece_input_is_inferred_as_trimmed_string
           " a, " ","%char "a" eq_refl eq_refl).
Defined.

(** * Further properties *)

(** ** Trimming twice *)

Section StripTwice.
Import PyStr.

Variable p : ascii -> bool.

Lemma rstrip_by_cons_keep (c : ascii) (s : string) :
  p c = false -> rstrip_by p (String c s) = String c (rstrip_by p s).
Proof. intros Hc. cbn. rewrite Hc. by destruct (rstrip_by p s). Qed.

Lemma lstrip_by_head (s : string) :
  lstrip_by p s = ""
  \/ exists c t, lstrip_by p s = String c t /\ p c = false.
Proof.
  induction s as [|c s IH]; cbn; [by left|].
  destruct (p c) eqn:Hc; [exact IH|]. right. eauto.
Qed.

Lemma rstrip_by_idem (s : string) :
  rstrip_by p (rstrip_by p s) = rstrip_by p s.
Proof.
  induction s as [|c s IH]; [done|]. cbn.
  destruct (rstrip_by p s) as [|d r] eqn:Hr.
  - destruct (p c) eqn:Hc; [done|]. cbn. by rewrite Hc.
  - cbn [rstrip_by]. cbn [rstrip_by] in IH. rewrite IH. done.
Qed.

Lemma strip_by_idem (s : string) :
  strip_by p (strip_by p s) = strip_by p s.
Proof.
  unfold strip_by.
  destruct (lstrip_by_head s) as [->|(c & t & -> & Hc)]; [done|].
  rewrite (rstrip_by_cons_keep c t Hc). cbn [lstrip_by]. rewrite Hc.
  rewrite <- (rstrip_by_cons_keep c t Hc). apply rstrip_by_idem.
Qed.

End StripTwice.

Lemma strip_idem (s : string) : PyStr.strip (PyStr.strip s) = PyStr.strip s.
Proof. apply strip_by_idem. Qed.

Lemma strip_trimmed (s : string) :
  PyStr.truthy (PyStr.strip s) = true -> trimmed (PyStr.strip s).
Proof. intros H. split; [done|apply strip_idem]. Qed.

(** ** What type inference returns *)

Section InferenceResults.
Import PyStr TypeConverter.

Lemma convert_to_number_strip (s : string) :
  convert_to_number (strip s) = convert_to_number s.
Proof. unfold convert_to_number. by rewrite strip_idem. Qed.

Lemma convert_to_list_strip (s : string) (seps : list ascii) :
  convert_to_list (strip s) seps = convert_to_list s seps.
Proof. unfold convert_to_list. by rewrite strip_idem. Qed.

(** X1. Whitespace around a non-blank input does not change what is
    inferred from it. *)
Theorem infer_ignores_surrounding_whitespace (s : string) :
  truthy (strip s) = true ->
  infer_and_convert (strip s) = infer_and_convert s.
Proof.
  intros Hs. unfold infer_and_convert.
  rewrite convert_to_number_strip, convert_to_list_strip.
  unfold convert_to_bool, convert_to_string. rewrite !strip_idem, Hs.
  cbn [negb]. by repeat case_bool_decide.
Qed.

Lemma infer_ignores_surrounding_whitespace_witness :
  infer_and_convert "  a, b  " = VList ["a"; "b"]
  /\ infer_and_convert "a, b" = infer_and_convert "  a, b  ".
Proof.
  split; [vm_compute; reflexivity|].
  exact (infer_ignores_surrounding_whitespace "  a, b  " eq_refl).
Defined.

Lemma pieces_trimmed (sep : ascii) (v : string) :
  Forall trimmed (pieces sep v).
Proof.
  apply Forall_forall. intros x [Hx Hin]%list_elem_of_filter.
  apply list_elem_of_fmap in Hin as (y & -> & _). by apply strip_trimmed.
Qed.

Lemma convert_to_list_loop_inl (v : string) (seps : list ascii) (l : list string) :
  convert_to_list_loop v seps = inl l ->
  (2 <= length l)%nat
  /\ exists sep, sep ∈ seps /\ contains sep v = true /\ l = pieces sep v.
Proof.
  induction seps as [|sep seps IH]; cbn [convert_to_list_loop]; [done|].
  fold (pieces sep v).
  destruct (contains sep v) eqn:Hc.
  - destruct (1 <? length (pieces sep v))%nat eqn:Hlen.
    + intros [= <-]. apply Nat.ltb_lt in Hlen. split; [lia|].
      exists sep. split; [left|done].
    + destruct (pieces sep v) as [|x [|y l']]; try done.
      intros H. destruct (IH H) as (? & sep' & ? & ?). split; [done|].
      exists sep'. split; [by right|done].
  - intros H. destruct (IH H) as (? & sep' & ? & ?). split; [done|].
    exists sep'. split; [by right|done].
Qed.

(** What is inferred from a non-blank input is well formed. *)
Lemma infer_well_formed (s : string) :
  truthy (strip s) = true -> well_formed_value (infer_and_convert s).
Proof.
  intros Hs. unfold infer_and_convert. rewrite Hs. cbn [negb].
  destruct (convert_to_bool s) as [b|?]; [done|].
  assert (well_formed_value
            match convert_to_list s default_separators with
            | inl l => VList l
            | inr _ => VStr (convert_to_string s)
            end) as Hlist.
  { unfold convert_to_list. rewrite Hs. cbn [negb].
    destruct (convert_to_list_loop (strip s) default_separators)
      as [l|?] eqn:Hl.
    - destruct (convert_to_list_loop_inl _ _ _ Hl) as (Hlen & sep & _ & _ & ->).
      split; [done|apply pieces_trimmed].
    - by apply strip_trimmed. }
  unfold convert_to_number. rewrite Hs. cbn [negb].
  destruct (negb (contains "." (strip s))).
  - by destruct (py_int (strip s)).
  - unfold py_float. destruct (float_literal (strip s)); [|done].
    rewrite strip_idem. by apply strip_trimmed.
Qed.

(** X2. What is inferred from a non-blank input is well formed: a string
    or float literal is the input trimmed, and a list has at least two
    items, all trimmed, which are the non-empty pieces of the trimmed input
    on one of the separators present in it. *)
Theorem infer_result_well_formed (s : string) :
  truthy (strip s) = true ->
  well_formed_value (infer_and_convert s)
  /\ (forall t, infer_and_convert s = VStr t -> t = strip s)
  /\ (forall f, infer_and_convert s = VFloat f -> f = strip s)
  /\ (forall items, infer_and_convert s = VList items ->
        exists sep, sep ∈ default_separators
                    /\ contains sep (strip s) = true
                    /\ items = pieces sep (strip s)).
Proof.
  intros Hs. unfold infer_and_convert. rewrite Hs. cbn [negb].
  destruct (convert_to_bool s) as [b|?]; [by repeat split|].
  unfold convert_to_number. rewrite Hs. cbn [negb].
  assert (forall z : Z,
    well_formed_value (VInt z)
    /\ (forall t, VInt z = VStr t -> t = strip s)
    /\ (forall f, VInt z = VFloat f -> f = strip s)
    /\ (forall items, VInt z = VList items ->
          exists sep, sep ∈ default_separators
                      /\ contains sep (strip s) = true
                      /\ items = pieces sep (strip s))) as Hint
    by (intros z; by repeat split).
  assert (
    well_formed_value
      match convert_to_list s default_separators with
      | inl l => VList l
      | inr _ => VStr (convert_to_string s)
      end
    /\ (forall t,
          match convert_to_list s default_separators with
          | inl l => VList l
          | inr _ => VStr (convert_to_string s)
          end = VStr t -> t = strip s)
    /\ (forall f,
          match convert_to_list s default_separators with
          | inl l => VList l
          | inr _ => VStr (convert_to_string s)
          end = VFloat f -> f = strip s)
    /\ (forall items,
          match convert_to_list s default_separators with
          | inl l => VList l
          | inr _ => VStr (convert_to_string s)
          end = VList items ->
          exists sep, sep ∈ default_separators
                      /\ contains sep (strip s) = true
                      /\ items = pieces sep (strip s))) as Hlist.
  { unfold convert_to_list. rewrite Hs. cbn [negb].
    destruct (convert_to_list_loop (strip s) default_separators)
      as [l|?] eqn:Hl.
    - destruct (convert_to_list_loop_inl _ _ _ Hl) as (Hlen & sep & Hin & Hc & ->).
      repeat split; try done.
      + apply pieces_trimmed.
      + intros items [= <-]. eauto.
    - unfold convert_to_string. repeat split; try done.
      + apply strip_idem.
      + by intros t [= <-]. }
  destruct (negb (contains "." (strip s))).
  - destruct (py_int (strip s)); [apply Hint|apply Hlist].
  - unfold py_float. destruct (float_literal (strip s)); [|apply Hlist].
    rewrite strip_idem. repeat split; try done.
    + apply strip_idem.
    + by intros f [= <-].
Qed.

Lemma infer_result_well_formed_witness :
  well_formed_value (infer_and_convert " Python , Go ;x ")
  /\ infer_and_convert " Python , Go ;x " = VList ["Python"; "Go ;x"].
Proof.
  split; [|vm_compute; reflexivity].
  exact (proj1 (infer_result_well_formed " Python , Go ;x " eq_refl)).
Defined.

(** X3. A number is inferred as an integer only from a text without a
    decimal point, and as a float only from a text with one: the point
    alone decides between the two. *)
Theorem infer_number_kind_by_decimal_point (s : string) :
  (forall z, infer_and_convert s = VInt z ->
     contains "." (strip s) = false /\ py_int (strip s) = Some z)
  /\ (forall f, infer_and_convert s = VFloat f ->
        contains "." (strip s) = true /\ float_literal (strip s) = true).
Proof.
  unfold infer_and_convert.
  destruct (negb (truthy (strip s))); [by split|].
  destruct (convert_to_bool s) as [b|?]; [by split|].
  unfold convert_to_number, py_float.
  destruct (negb (truthy (strip s))).
  { by split; intros ?; destruct (convert_to_list s default_separators). }
  destruct (contains "." (strip s)); cbn [negb].
  - destruct (float_literal (strip s)) eqn:Hf.
    + split; [done|]. by intros f [= <-].
    + by split; intros ?; destruct (convert_to_list s default_separators).
  - destruct (py_int (strip s)) as [z|].
    + split; [|done]. by intros z' [= <-].
    + by split; intros ?; destruct (convert_to_list s default_separators).
Qed.

Lemma infer_number_kind_by_decimal_point_witness :
  (contains "." (strip " 42 ") = false /\ py_int (strip " 42 ") = Some 42)
  /\ (contains "." (strip "3.") = true /\ float_literal (strip "3.") = true)
  /\ infer_and_convert "1e5" = VStr "1e5".
Proof.
  split; [|split; [|vm_compute; reflexivity]].
  - exact (proj1 (infer_number_kind_by_decimal_point " 42 ") 42 eq_refl).
  - exact (proj2 (infer_number_kind_by_decimal_point "3.") "3." eq_refl).
Defined.

End InferenceResults.

(** ** Rule kinds *)

Section RuleKinds.
Import PyStr RuleParser.

(** X4. The kind of a rule is decided by the rule being empty and by the
    ends of its trimmed value, in this order: empty is unknown, two leading
    slashes make an XPath, even when the value also ends with a slash, and
    a rule that is neither an XPath nor a regex is a CSS selector.  The
    pattern of a rule that is not empty is its trimmed value. *)
Theorem parse_rule_kinds (rule : string) :
  let t := strip rule in
  ((parse_rule rule).1 = "unknown" <-> rule = "")
  /\ ((parse_rule rule).1 = "xpath"
      <-> rule <> "" /\ startswith t "//" = true)
  /\ ((parse_rule rule).1 = "css"
      <-> rule <> "" /\ startswith t "//" = false
          /\ (startswith t "/" && endswith t "/" || startswith t "^") = false)
  /\ (rule <> "" -> (parse_rule rule).2 = t)
  /\ (parse_rule rule).1 ∈ ["unknown"; "xpath"; "regex"; "css"].
Proof.
  cbn zeta. unfold parse_rule.
  destruct rule as [|c rule]; cbn [truthy negb fst snd].
  { split; [|split; [|split; [|split]]];
      [done|by split; [|intros [? _]]|by split; [|intros [? _]]
      |done|set_solver]. }
  destruct (startswith _ "//"); cbn [fst snd].
  { split; [|split; [|split; [|split]]];
      [done|done|by split; [|intros (_ & ? & _)]|done|set_solver]. }
  destruct (_ || _); cbn [fst snd].
  - split; [|split; [|split; [|split]]];
      [done|by split; [|intros [_ ?]]
      |by split; [|intros (_ & _ & ?)]|done|set_solver].
  - split; [|split; [|split; [|split]]];
      [done|by split; [|intros [_ ?]]|done|done|set_solver].
Qed.

(** X5. Whitespace around a rule that is not blank changes neither its
    classification nor what it extracts. *)
Theorem rule_ignores_surrounding_whitespace
  (E : Engine) (doc : soup E) (rule : string) :
  truthy (strip rule) = true ->
  parse_rule (strip rule) = parse_rule rule
  /\ ExtractionEngine._extract_single_field E doc (strip rule)
     = ExtractionEngine._extract_single_field E doc rule.
Proof.
  intros Ht.
  assert (truthy rule = true) as Hr by (by destruct rule).
  assert (parse_rule (strip rule) = parse_rule rule) as Hp.
  { unfold parse_rule. by rewrite strip_idem, Ht, Hr. }
  split; [exact Hp|].
  unfold ExtractionEngine._extract_single_field. by rewrite Hp, Ht, Hr.
Qed.

Lemma rule_ignores_surrounding_whitespace_witness :
  parse_rule "h1" = parse_rule "  h1  "
  /\ ExtractionEngine._extract_single_field Stub.engine "<h1>Acme</h1>" "h1"
     = ExtractionEngine._extract_single_field Stub.engine "<h1>Acme</h1>"
         "  h1  ".
Proof.
  exact (rule_ignores_surrounding_whitespace Stub.engine "<h1>Acme</h1>"
           "  h1  " eq_refl).
Defined.

End RuleKinds.

(** ** The XPath and regex strategies *)

Section Strategies.
Import PyStr RuleParser ExtractionEngine.

Variable E : Engine.
Implicit Types doc : soup E.

Lemma parse_rule_truthy (rule kind pattern : string) :
  parse_rule rule = (kind, pattern) -> kind <> "unknown" ->
  truthy rule = true.
Proof. destruct rule; [|done]. intros [= <- _]. done. Qed.

(** X6. Of the results of an XPath query only the first is used: its text
    is what the rule extracts, whatever follows it. *)
Theorem xpath_rule_takes_first_result
  doc (rule pattern : string) (item : xpath_item) (rest : list xpath_item) :
  parse_rule rule = ("xpath", pattern) ->
  lxml_xpath E (soup_str E doc) pattern = Return (XItems (item :: rest)) ->
  _extract_single_field E doc rule
  = Return (Some match item with
                 | XStr s => s
                 | XElem text_content => text_content
                 | XObj repr => repr
                 end).
Proof.
  intros Hrule Hq. unfold _extract_single_field.
  rewrite (parse_rule_truthy rule _ _ Hrule) by done. rewrite Hrule.
  cbn [negb String.eqb Ascii.eqb Bool.eqb].
  unfold _extract_xpath. rewrite Hq. by destruct item.
Qed.

(** X7. When [lxml] is not installed, a rule classified as an XPath finds
    nothing and does not fail; any other exception of the query is
    reported as [ExtractionError]. *)
Theorem xpath_rule_without_lxml doc (rule pattern : string) :
  parse_rule rule = ("xpath", pattern) ->
  (forall msg,
     lxml_xpath E (soup_str E doc) pattern = Raise (ImportError msg) ->
     _extract_single_field E doc rule = Return None
     /\ field_result_of doc rule = NotFound)
  /\ (forall e,
        lxml_xpath E (soup_str E doc) pattern = Raise e ->
        (forall msg, e <> ImportError msg) ->
        _extract_single_field E doc rule
        = Raise (ExtractionError ("XPath error: " +:+ exn_str e))
        /\ field_result_of doc rule = Failed).
Proof.
  intros Hrule.
  assert (_extract_single_field E doc rule = _extract_xpath E doc pattern) as Heq.
  { unfold _extract_single_field.
    rewrite (parse_rule_truthy rule _ _ Hrule) by done. by rewrite Hrule. }
  unfold field_result_of. rewrite Heq. unfold _extract_xpath. split.
  - intros msg ->. done.
  - intros e -> Hne. destruct e; try done. by destruct (Hne msg).
Qed.

End Strategies.

Lemma xpath_rule_takes_first_result_witness :
  ExtractionEngine._extract_single_field
    {| soup := string; tag := string;
       BeautifulSoup := fun html => Return html;
       select := fun _ _ => Return [];
       get_text := fun t => t;
       soup_str := fun page => page;
       lxml_xpath := fun _ _ => Return (XItems [XElem "Acme"; XElem "Lab"]);
       re_search := fun _ _ => Return None |}
    "<h1>Acme</h1><h1>Lab</h1>" "//h1"
  = Return (Some "Acme").
Proof.
  exact (xpath_rule_takes_first_result
           {| soup := string; tag := string;
              BeautifulSoup := fun html => Return html;
              select := fun _ _ => Return [];
              get_text := fun t => t;
              soup_str := fun page => page;
              lxml_xpath :=
                fun _ _ => Return (XItems [XElem "Acme"; XElem "Lab"]);
              re_search := fun _ _ => Return None |}
           "<h1>Acme</h1><h1>Lab</h1>" "//h1" "//h1"
           (XElem "Acme") [XElem "Lab"] eq_refl eq_refl).
Defined.

Lemma xpath_rule_without_lxml_witness :
  ExtractionEngine._extract_single_field Stub.engine "<h1>Acme</h1>" "//h1"
  = Return None
  /\ field_result_of (E := Stub.engine) "<h1>Acme</h1>" "//h1" = NotFound.
Proof.
  exact (proj1 (xpath_rule_without_lxml Stub.engine "<h1>Acme</h1>"
                  "//h1" "//h1" eq_refl)
           "No module named 'lxml'" eq_refl).
Defined.

Lemma parse_rule_kinds_witness :
  (RuleParser.parse_rule " //div/ ").1 = "xpath"
  /\ (RuleParser.parse_rule " //div/ ").2 = "//div/".
Proof.
  destruct (parse_rule_kinds " //div/ ") as (_ & [_ Hx] & _ & Hp & _).
  split.
  - apply Hx. split; [discriminate|reflexivity].
  - rewrite Hp by discriminate. reflexivity.
Defined.

(** ** The pattern handed to [re.search] *)

Section RegexPattern.
Import PyStr RuleParser ExtractionEngine.

Lemma append_nil_l (s : string) : "" +:+ s = s.
Proof. reflexivity. Qed.

Lemma append_cons (c : ascii) (s t : string) :
  String c s +:+ t = String c (s +:+ t).
Proof. reflexivity. Qed.

Lemma rstrip_by_snoc_keep (q : ascii -> bool) (s : string) (c : ascii) :
  q c = false ->
  rstrip_by q (s +:+ String c "") = s +:+ String c "".
Proof.
  intros Hc. induction s as [|d s IH].
  - rewrite append_nil_l. cbn. by rewrite Hc.
  - rewrite append_cons. cbn [rstrip_by]. rewrite IH.
    destruct s; by rewrite ?append_nil_l, ?append_cons.
Qed.

Lemma rstrip_by_snoc_drop (q : ascii -> bool) (s : string) (c : ascii) :
  q c = true ->
  rstrip_by q (s +:+ String c "") = rstrip_by q s.
Proof.
  intros Hc. induction s as [|d s IH].
  - rewrite append_nil_l. cbn. by rewrite Hc.
  - rewrite append_cons. cbn [rstrip_by]. by rewrite IH.
Qed.

Lemma endswith_snoc (s : string) (c : ascii) :
  endswith (s +:+ String c "") (String c "") = true.
Proof.
  induction s as [|d s IH].
  - rewrite append_nil_l. cbn [endswith]. by rewrite String.eqb_refl.
  - rewrite append_cons. cbn [endswith]. rewrite IH. apply orb_true_r.
Qed.

Lemma rstrip_slash_fixed (s : string) :
  endswith s "/" = false -> rstrip_by (Ascii.eqb "/") s = s.
Proof.
  induction s as [|d s IH]; [done|].
  cbn [endswith rstrip_by]. intros [Hd Hs]%orb_false_elim.
  destruct s as [|e s].
  - cbn [rstrip_by]. destruct (Ascii.eqb_spec "/" d) as [<-|_]; [|done].
    discriminate Hd.
  - rewrite (IH Hs). done.
Qed.

Lemma prefix_nil (s : string) : String.prefix "" s = true.
Proof. by destruct s. Qed.

Lemma startswith_cons_char (c d : ascii) (s : string) :
  startswith (String d s) (String c "") = Ascii.eqb c d.
Proof.
  unfold startswith. cbn [String.prefix]. rewrite prefix_nil.
  destruct (Ascii.eqb_spec c d); by destruct (ascii_dec c d).
Qed.

Lemma lstrip_slash_fixed (s : string) :
  startswith s "/" = false -> lstrip_by (Ascii.eqb "/") s = s.
Proof.
  destruct s as [|d s]; [done|]. rewrite startswith_cons_char.
  cbn [lstrip_by]. by intros ->.
Qed.

Lemma startswith_two_slashes (s : string) :
  startswith (String "/" s) "//" = startswith s "/".
Proof.
  unfold startswith. cbn [String.prefix].
  by destruct (ascii_dec "/" "/").
Qed.

Lemma startswith_append_char (c : ascii) (s t : string) :
  truthy s = true ->
  startswith (s +:+ t) (String c "") = startswith s (String c "").
Proof.
  destruct s as [|d s]; [done|]. intros _.
  by rewrite append_cons, !startswith_cons_char.
Qed.

Variable E : Engine.
Implicit Types doc : soup E.

(** X8. A rule written [/p/], where [p] is not empty and neither starts
    nor ends with a slash, searches the page text for exactly [p]: the two
    delimiters are removed and nothing else.  A match is returned as
    found, no match as nothing found, and an exception of the search as
    [ExtractionError]. *)
Theorem slash_delimited_rule_searches_inner_pattern doc (p : string) :
  truthy p = true ->
  startswith p "/" = false ->
  endswith p "/" = false ->
  parse_rule ("/" +:+ p +:+ "/") = ("regex", "/" +:+ p +:+ "/")
  /\ _extract_single_field E doc ("/" +:+ p +:+ "/")
     = match re_search E p (soup_str E doc) with
       | Return found => Return found
       | Raise e => Raise (ExtractionError ("Regex error: " +:+ exn_str e))
       end.
Proof.
  intros Hp Hstart Hend.
  rewrite append_cons, append_nil_l.
  assert (startswith (String "/" (p +:+ "/")) "//" = false) as Hxpath.
  { by rewrite startswith_two_slashes, startswith_append_char. }
  assert (endswith (String "/" (p +:+ "/")) "/" = true) as Hslash.
  { rewrite <- append_cons. apply endswith_snoc. }
  assert (strip (String "/" (p +:+ "/")) = String "/" (p +:+ "/")) as Hstrip.
  { unfold strip, strip_by. cbn [lstrip_by].
    change (is_space "/") with false. cbv iota.
    rewrite <- append_cons. by apply rstrip_by_snoc_keep. }
  assert (parse_rule (String "/" (p +:+ "/"))
          = ("regex", String "/" (p +:+ "/"))) as Hrule.
  { unfold parse_rule. by rewrite Hstrip, Hxpath, Hslash, startswith_cons_char. }
  split; [exact Hrule|].
  unfold _extract_single_field. rewrite Hrule. cbn [truthy negb].
  cbn [String.eqb Ascii.eqb Bool.eqb]. unfold _extract_regex.
  rewrite startswith_cons_char, Ascii.eqb_refl.
  assert (strip_by (Ascii.eqb "/") (String "/" (p +:+ "/")) = p) as ->.
  { unfold strip_by. cbn [lstrip_by]. rewrite Ascii.eqb_refl.
    assert (lstrip_by (Ascii.eqb "/") (p +:+ "/") = p +:+ "/") as ->.
    { apply lstrip_slash_fixed. by rewrite startswith_append_char. }
    rewrite (rstrip_by_snoc_drop _ p "/" (Ascii.eqb_refl _)).
    by apply rstrip_slash_fixed. }
  by destruct (re_search E p (soup_str E doc)) as [[g|]|e].
Qed.

End RegexPattern.

Lemma slash_delimited_rule_searches_inner_pattern_witness :
  ExtractionEngine._extract_single_field Stub.engine "<h1>Acme</h1>" "/acme/"
  = Return (Some "Acme").
Proof.
  exact (proj2 (slash_delimited_rule_searches_inner_pattern Stub.engine
                  "<h1>Acme</h1>" "acme" eq_refl eq_refl eq_refl)).
Defined.

(** ** The dicts of a result *)

Section ResultDicts.
Import PyStr ExtractionEngine.

Variable E : Engine.
Implicit Types doc : soup E.

Lemma field_result_of_Extracted doc (rule : string) (v : value) :
  field_result_of doc rule = Extracted v ->
  exists text,
    _extract_single_field E doc rule = Return (Some text)
    /\ truthy (strip text) = true
    /\ v = TypeConverter.infer_and_convert text.
Proof.
  unfold field_result_of.
  destruct (_extract_single_field E doc rule) as [[text|]|e]; try done.
  destruct (truthy (strip text)) eqn:Ht; [|done].
  intros [= <-]. eauto.
Qed.

Lemma extract_loop_lookup_Some doc items n v : forall fields st,
  (extract_loop E doc items fields st).1 !! n = Some v ->
  fields !! n = Some v
  \/ exists rule, (n, rule) ∈ items /\ field_result_of doc rule = Extracted v.
Proof.
  induction items as [|[m q] items IH]; intros fields st; [by left|].
  rewrite extract_loop_cons, extract_one_eq.
  destruct (field_result_of doc q) as [w| |] eqn:Hq; cbn [fst snd];
    intros [H|(rule & Hin & Hr)]%IH;
    try (by right; exists rule; split; [right|]);
    try (by left).
  destruct (decide (m = n)) as [->|Hne].
  - rewrite lookup_insert_eq in H. injection H as ->.
    right. exists q. split; [left|done].
  - rewrite lookup_insert_ne in H by done. by left.
Qed.

Lemma extract_loop_is_Some doc items n : forall fields st,
  is_Some ((extract_loop E doc items fields st).1 !! n)
  <-> is_Some (fields !! n) \/ n ∈ names_where is_extracted doc items.
Proof.
  induction items as [|[m q] items IH]; intros fields st.
  - rewrite extract_loop_nil, names_where_nil, elem_of_nil. cbn. tauto.
  - rewrite extract_loop_cons, extract_one_eq, names_where_cons, IH.
    destruct (field_result_of doc q); cbn [fst snd is_extracted app];
      [|tauto|tauto].
    rewrite elem_of_cons, lookup_insert.
    destruct (decide (m = n)) as [->|Hne]; cbn.
    + split; [tauto|]. intros _. left. eauto.
    + split; [tauto|]. intros [?|[?|?]]; [tauto|congruence|tauto].
Qed.

(** The keys of the two dicts of a result, section by section. *)
Lemma result_keys (ts html : string) (cfg : SiteConfig) doc r :
  BeautifulSoup E html = Return doc ->
  extract_fields E ts html cfg = Return r ->
  (forall n, is_Some (res_priority_fields r !! n)
             <-> n ∈ names_where is_extracted doc (priority_fields cfg))
  /\ (forall n, is_Some (extra_metadata r !! n)
                <-> n ∈ names_where is_extracted doc (extra_fields cfg)).
Proof.
  intros Hdoc Hr.
  destruct (extract_fields_parsed E ts html cfg doc Hdoc)
    as (r' & Hr' & _ & _ & _ & Hprio & [st Hextra] & _).
  rewrite Hr in Hr'. injection Hr' as <-.
  split; intros n.
  - rewrite Hprio, extract_loop_is_Some, lookup_empty, is_Some_alt. tauto.
  - rewrite Hextra, extract_loop_is_Some, lookup_empty, is_Some_alt. tauto.
Qed.

Lemma result_extracted_keys (ts html : string) (cfg : SiteConfig) r :
  extract_fields E ts html cfg = Return r ->
  forall n, n ∈ extracted (fields_status r)
            <-> is_Some (res_priority_fields r !! n)
                \/ is_Some (extra_metadata r !! n).
Proof.
  intros Hr n.
  destruct (extract_fields_returned E ts html cfg r Hr) as [doc Hdoc].
  destruct (result_keys ts html cfg doc r Hdoc Hr) as [Hp Hx].
  destruct (extract_fields_parsed E ts html cfg doc Hdoc)
    as (r' & Hr' & He & _).
  rewrite Hr in Hr'. injection Hr' as <-.
  by rewrite He, names_where_app, elem_of_app, Hp, Hx.
Qed.

(** X9. After a completed call, the keys of [priority_fields] are the
    names of the priority section that were extracted, the keys of
    [extra_metadata] those of the extra section, and a name is in
    [extracted] exactly when it is a key of one of the two dicts. *)
Theorem stored_keys_are_the_extracted_names
  (ts html : string) (cfg : SiteConfig) doc (r : ExtractionResult) :
  BeautifulSoup E html = Return doc ->
  extract_fields E ts html cfg = Return r ->
  (forall n, is_Some (res_priority_fields r !! n)
             <-> n ∈ names_where is_extracted doc (priority_fields cfg))
  /\ (forall n, is_Some (extra_metadata r !! n)
                <-> n ∈ names_where is_extracted doc (extra_fields cfg))
  /\ (forall n, n ∈ extracted (fields_status r)
                <-> is_Some (res_priority_fields r !! n)
                    \/ is_Some (extra_metadata r !! n)).
Proof.
  intros Hdoc Hr.
  destruct (result_keys ts html cfg doc r Hdoc Hr) as [Hp Hx].
  split; [exact Hp|]. split; [exact Hx|].
  by apply (result_extracted_keys ts html cfg).
Qed.

(** Nothing was extracted exactly when both dicts are empty. *)
Lemma result_no_data_iff (ts html : string) (cfg : SiteConfig) r :
  extract_fields E ts html cfg = Return r ->
  extracted (fields_status r) = []
  <-> res_priority_fields r = ∅ /\ extra_metadata r = ∅.
Proof.
  intros Hr. pose proof (result_extracted_keys ts html cfg r Hr) as Hkeys.
  split.
  - intros Hnil. rewrite Hnil in Hkeys.
    split; apply map_empty; intros n; apply eq_None_not_Some; intros Hn;
      apply (elem_of_nil n), Hkeys; tauto.
  - intros [Hp Hx]. rewrite Hp, Hx in Hkeys.
    destruct (extracted (fields_status r)) as [|n l]; [done|].
    assert (n ∈ n :: l) as Hin by left.
    apply Hkeys in Hin as [[v Hv]|[v Hv]]; by rewrite lookup_empty in Hv.
Qed.

Lemma result_success_flag (ts html : string) (cfg : SiteConfig) r :
  extract_fields E ts html cfg = Return r ->
  success r = negb (bool_decide (extracted (fields_status r) = [])).
Proof.
  intros Hr.
  destruct (extract_fields_returned E ts html cfg r Hr) as [doc Hdoc].
  destruct (extract_fields_parsed E ts html cfg doc Hdoc)
    as (r' & Hr' & _ & _ & _ & _ & _ & Hs & _).
  rewrite Hr in Hr'. injection Hr' as <-. rewrite Hs.
  by destruct (extracted (fields_status r)).
Qed.

(** X10. After a completed call, the success flag is true exactly when
    one of the two dicts holds a value: a result flagged as failed carries
    no data, and a result without data is flagged as failed. *)
Theorem success_iff_data
  (ts html : string) (cfg : SiteConfig) (r : ExtractionResult) :
  extract_fields E ts html cfg = Return r ->
  (success r = true
   <-> res_priority_fields r <> ∅ \/ extra_metadata r <> ∅)
  /\ (success r = false ->
      res_priority_fields r = ∅ /\ extra_metadata r = ∅).
Proof.
  intros Hr.
  pose proof (result_no_data_iff ts html cfg r Hr) as Hdata.
  rewrite (result_success_flag ts html cfg r Hr).
  case_bool_decide as Hnil; cbn [negb].
  - apply Hdata in Hnil as [Hp Hx]. split; [|done].
    split; [done|]. intros [?|?]; congruence.
  - split; [|done]. split; [|done]. intros _.
    destruct (decide (res_priority_fields r = ∅)) as [Hp|Hp]; [|by left].
    destruct (decide (extra_metadata r = ∅)) as [Hx|Hx]; [|by right].
    destruct Hnil. by apply Hdata.
Qed.

(** X11. Every value stored by a completed call is well formed: it was
    inferred from the non-blank text of a match of the rule of its own
    field, so a stored string is never empty and never carries surrounding
    whitespace, and a stored list has at least two items. *)
Theorem stored_values_are_well_formed
  (ts html : string) (cfg : SiteConfig) doc (r : ExtractionResult) :
  BeautifulSoup E html = Return doc ->
  extract_fields E ts html cfg = Return r ->
  forall n v,
    res_priority_fields r !! n = Some v \/ extra_metadata r !! n = Some v ->
    well_formed_value v
    /\ exists rule text,
         (n, rule) ∈ priority_fields cfg ++ extra_fields cfg
         /\ _extract_single_field E doc rule = Return (Some text)
         /\ truthy (strip text) = true
         /\ v = TypeConverter.infer_and_convert text.
Proof.
  intros Hdoc Hr n v Hv.
  destruct (extract_fields_parsed E ts html cfg doc Hdoc)
    as (r' & Hr' & _ & _ & _ & Hprio & [st Hextra] & _).
  rewrite Hr in Hr'. injection Hr' as <-.
  assert (exists rule,
            (n, rule) ∈ priority_fields cfg ++ extra_fields cfg
            /\ field_result_of doc rule = Extracted v) as (rule & Hin & Hres).
  { destruct Hv as [Hv|Hv].
    - rewrite Hprio in Hv.
      apply extract_loop_lookup_Some in Hv as [Hv|(rule & Hin & Hres)];
        [by rewrite lookup_empty in Hv|].
      exists rule. split; [apply elem_of_app; by left|done].
    - rewrite Hextra in Hv.
      apply extract_loop_lookup_Some in Hv as [Hv|(rule & Hin & Hres)];
        [by rewrite lookup_empty in Hv|].
      exists rule. split; [apply elem_of_app; by right|done]. }
  apply field_result_of_Extracted in Hres as (text & Hfield & Htext & ->).
  split; [by apply infer_well_formed|].
  exists rule, text. done.
Qed.

(** X12. A field configured with the empty rule is reported as not found
    on every page, and the call still returns. *)
Theorem empty_rule_is_not_found
  (ts html : string) (cfg : SiteConfig) doc :
  BeautifulSoup E html = Return doc ->
  exists r,
    extract_fields E ts html cfg = Return r
    /\ forall name,
         (name, "") ∈ priority_fields cfg ++ extra_fields cfg ->
         name ∈ not_found (fields_status r).
Proof.
  intros Hdoc.
  destruct (extract_fields_parsed E ts html cfg doc Hdoc)
    as (r & Hr & _ & _ & Hn & _).
  exists r. split; [exact Hr|]. intros name Hin. rewrite Hn.
  apply elem_of_names_where. exists "". split; [exact Hin|reflexivity].
Qed.

End ResultDicts.

Lemma stored_keys_are_the_extracted_names_witness :
  exists r,
    Stub.run "<h1>Acme</h1>" [("name", "h1"); ("phone", "h2")] [("title", "h1")]
    = Return r
    /\ (forall n, n ∈ extracted (fields_status r)
                  <-> is_Some (res_priority_fields r !! n)
                      \/ is_Some (extra_metadata r !! n))
    /\ (is_Some (res_priority_fields r !! "name")
        /\ res_priority_fields r !! "phone" = None
        /\ is_Some (extra_metadata r !! "title")).
Proof.
  pose (cfg := Stub.site [("name", "h1"); ("phone", "h2")] [("title", "h1")]).
  destruct (extract_fields_parsed Stub.engine "2024-01-01T00:00:00+00:00"
              "<h1>Acme</h1>" cfg "<h1>Acme</h1>" eq_refl) as (r & Hr & _).
  exists r. split; [exact Hr|].
  destruct (stored_keys_are_the_extracted_names Stub.engine _ _ cfg
              "<h1>Acme</h1>" r eq_refl Hr) as (Hp & Hx & Hk).
  split; [exact Hk|]. split; [|split].
  - apply Hp. vm_compute. left.
  - apply eq_None_not_Some. rewrite Hp. vm_compute.
    intros H. apply list_elem_of_singleton in H. discriminate H.
  - apply Hx. vm_compute. left.
Defined.

Lemma success_iff_data_witness :
  exists r,
    Stub.run "<h1>Acme</h1>" [("phone", "h2")] [("fax", "h3[")] = Return r
    /\ success r = false
    /\ res_priority_fields r = ∅ /\ extra_metadata r = ∅.
Proof.
  pose (cfg := Stub.site [("phone", "h2")] [("fax", "h3[")]).
  destruct (extract_fields_parsed Stub.engine "2024-01-01T00:00:00+00:00"
              "<h1>Acme</h1>" cfg "<h1>Acme</h1>" eq_refl)
    as (r & Hr & He & _ & _ & _ & _ & Hs & _).
  exists r. split; [exact Hr|].
  assert (success r = false) as Hfalse.
  { rewrite Hs, He. vm_compute. reflexivity. }
  split; [exact Hfalse|].
  exact (proj2 (success_iff_data Stub.engine _ _ cfg r Hr) Hfalse).
Defined.

Lemma stored_values_are_well_formed_witness :
  exists r,
    Stub.run "<p> Python </p><p>Go</p>" [("skills", "p")] [] = Return r
    /\ res_priority_fields r !! "skills" = Some (VList ["Python"; "Go"])
    /\ well_formed_value (VList ["Python"; "Go"]).
Proof.
  pose (cfg := Stub.site [("skills", "p")] []).
  destruct (extract_fields_parsed Stub.engine "2024-01-01T00:00:00+00:00"
              "<p> Python </p><p>Go</p>" cfg "<p> Python </p><p>Go</p>" eq_refl)
    as (r & Hr & _ & _ & _ & Hprio & _).
  exists r. split; [exact Hr|].
  assert (res_priority_fields r !! "skills" = Some (VList ["Python"; "Go"]))
    as Hv by (rewrite Hprio; vm_compute; reflexivity).
  split; [exact Hv|].
  exact (proj1 (stored_values_are_well_formed Stub.engine _ _ cfg
                  "<p> Python </p><p>Go</p>" r eq_refl Hr "skills" _
                  (or_introl Hv))).
Defined.

Lemma empty_rule_is_not_found_witness :
  exists r,
    Stub.run "<h1>Acme</h1>" [("name", "h1"); ("phone", "")] [] = Return r
    /\ "phone" ∈ not_found (fields_status r).
Proof.
  destruct (empty_rule_is_not_found Stub.engine "2024-01-01T00:00:00+00:00"
              "<h1>Acme</h1>" (Stub.site [("name", "h1"); ("phone", "")] [])
              "<h1>Acme</h1>" eq_refl) as (r & Hr & Hn).
  exists r. split; [exact Hr|]. apply Hn. right. left.
Defined.

(** ** Integers written in decimal *)

Section DecimalIntegers.
Import PyStr TypeConverter.

Lemma strip_fixed (s : string) :
  all_chars (fun c => negb (is_space c)) s = true -> strip s = s.
Proof.
  intros Hs. unfold strip, strip_by.
  assert (lstrip_by is_space s = s) as ->.
  { destruct s as [|c s]; [done|]. cbn in *.
    by destruct (is_space c). }
  induction s as [|c s IH]; [done|].
  cbn [all_chars] in Hs. apply andb_prop in Hs as [Hc Hs].
  cbn [rstrip_by]. rewrite (IH Hs).
  destruct s; [|done]. by destruct (is_space c).
Qed.

Lemma all_chars_impl (p q : ascii -> bool) (s : string) :
  (forall c, p c = true -> q c = true) ->
  all_chars p s = true -> all_chars q s = true.
Proof.
  intros Hpq. induction s as [|c s IH]; [done|]. cbn.
  intros [Hc Hs]%andb_prop. by rewrite (Hpq c Hc), (IH Hs).
Qed.

Lemma all_chars_not_contains (p : ascii -> bool) (c : ascii) (s : string) :
  p c = false -> all_chars p s = true -> contains c s = false.
Proof.
  intros Hc. induction s as [|d s IH]; [done|]. cbn.
  intros [Hd Hs]%andb_prop. rewrite (IH Hs).
  destruct (Ascii.eqb_spec d c) as [->|_]; [congruence|done].
Qed.

Lemma lower_fixed (s : string) :
  all_chars (fun c => Ascii.eqb (lower_char c) c) s = true -> lower s = s.
Proof.
  induction s as [|c s IH]; [done|]. cbn.
  intros [Hc Hs]%andb_prop. apply Ascii.eqb_eq in Hc. by rewrite Hc, (IH Hs).
Qed.

Lemma digits_all_digits (d : Decimal.uint) :
  all_chars is_digit (DecimalString.NilEmpty.string_of_uint d) = true.
Proof. induction d; cbn [DecimalString.NilEmpty.string_of_uint all_chars]; done. Qed.

Lemma digits_length (d : Decimal.uint) :
  String.length (DecimalString.NilEmpty.string_of_uint d)
  = N.to_nat (DecimalPos.Unsigned.usize d).
Proof.
  induction d; cbn [DecimalString.NilEmpty.string_of_uint String.length
                    DecimalPos.Unsigned.usize]; [done|..];
    rewrite IHd; lia.
Qed.

(** Reading the digits of [d] continues the number read so far. *)
Lemma int_digits_decimal (d : Decimal.uint) : forall b acc cnt,
  d <> Decimal.Nil \/ b = true ->
  int_digits (DecimalString.NilEmpty.string_of_uint d) b acc cnt
  = Some (acc * 10 ^ Z.of_N (DecimalPos.Unsigned.usize d)
          + Z.of_N (DecimalPos.Unsigned.of_lu (Decimal.rev d)),
          (cnt + String.length (DecimalString.NilEmpty.string_of_uint d))%nat).
Proof.
  induction d as [|d IH|d IH|d IH|d IH|d IH|d IH|d IH|d IH|d IH|d IH];
    intros b acc cnt Hok.
  { destruct Hok as [?| ->]; [done|]. cbn. f_equal. f_equal; lia. }
  all: cbn [DecimalString.NilEmpty.string_of_uint int_digits String.length
            DecimalPos.Unsigned.usize];
    unfold Decimal.rev at 1; cbn [Decimal.revapp];
    rewrite (DecimalPos.Unsigned.of_lu_revapp d);
    match goal with
    | |- context [DecimalPos.Unsigned.of_lu (?f Decimal.Nil)] =>
        let v := eval vm_compute in (DecimalPos.Unsigned.of_lu (f Decimal.Nil)) in
        change (DecimalPos.Unsigned.of_lu (f Decimal.Nil)) with v
    end;
    match goal with
    | |- context [is_digit ?c] =>
        change (is_digit c) with true;
        let v := eval vm_compute in (digit_value c) in
        change (digit_value c) with v
    end;
    cbv iota; rewrite IH by (by right);
    rewrite N2Z.inj_add, N2Z.inj_mul, N2Z.inj_pow, N2Z.inj_succ,
      Z.pow_succ_r by lia;
    cbn [Z.of_N];
    set (P := 10 ^ Z.of_N (DecimalPos.Unsigned.usize d));
    f_equal; apply pair_equal_spec; split; [ring|lia].
Qed.

Lemma int_unsigned_decimal (d : Decimal.uint) :
  d <> Decimal.Nil ->
  int_unsigned (DecimalString.NilEmpty.string_of_uint d)
  = if (String.length (DecimalString.NilEmpty.string_of_uint d)
        <=? int_max_str_digits)%nat
    then Some (Z.of_N (N.of_uint d)) else None.
Proof.
  intros Hd. unfold int_unsigned.
  rewrite (int_digits_decimal d false 0 0%nat) by (by left).
  rewrite Nat.add_0_l, Z.mul_0_l, Z.add_0_l.
  unfold N.of_uint. by rewrite DecimalPos.Unsigned.of_uint_alt.
Qed.

End DecimalIntegers.

Section DecimalRoundTrip.
Import PyStr TypeConverter.

(** The text of an integer: the digits of its absolute value, after a minus
    sign when it is negative. *)
Lemma py_str_int_cases (z : Z) :
  exists u : Decimal.uint,
    u <> Decimal.Nil
    /\ Z.of_N (N.of_uint u) = Z.abs z
    /\ py_str_int (Z.abs z) = DecimalString.NilEmpty.string_of_uint u
    /\ py_str_int z
       = if (z <? 0)%Z
         then String "-" (DecimalString.NilEmpty.string_of_uint u)
         else DecimalString.NilEmpty.string_of_uint u.
Proof.
  destruct z as [|p|p].
  - exists (Decimal.D0 Decimal.Nil). by repeat split.
  - exists (Pos.to_uint p).
    pose proof (DecimalPos.Unsigned.to_uint_nonnil p) as Hnil.
    change (Z.abs (Z.pos p)) with (Z.pos p).
    change (Z.abs (Z.neg p)) with (Z.pos p).
    cbn [Z.ltb Z.compare]. split; [done|].
    split; [unfold N.of_uint; by rewrite DecimalPos.Unsigned.of_to|].
    unfold py_str_int. cbn [Z.to_int].
    unfold DecimalString.NilZero.string_of_int,
      DecimalString.NilZero.string_of_uint.
    by destruct (Pos.to_uint p).
  - exists (Pos.to_uint p).
    pose proof (DecimalPos.Unsigned.to_uint_nonnil p) as Hnil.
    change (Z.abs (Z.pos p)) with (Z.pos p).
    change (Z.abs (Z.neg p)) with (Z.pos p).
    cbn [Z.ltb Z.compare]. split; [done|].
    split; [unfold N.of_uint; by rewrite DecimalPos.Unsigned.of_to|].
    unfold py_str_int. cbn [Z.to_int].
    unfold DecimalString.NilZero.string_of_int,
      DecimalString.NilZero.string_of_uint.
    by destruct (Pos.to_uint p).
Qed.

Lemma digits_head (u : Decimal.uint) :
  u <> Decimal.Nil ->
  exists c t,
    DecimalString.NilEmpty.string_of_uint u = String c t /\ is_digit c = true.
Proof. destruct u; [done|..]; intros _; eexists _, _; by split. Qed.

Lemma py_int_digits (u : Decimal.uint) :
  u <> Decimal.Nil ->
  let digits := DecimalString.NilEmpty.string_of_uint u in
  py_int digits
  = (if (String.length digits <=? int_max_str_digits)%nat
     then Some (Z.of_N (N.of_uint u)) else None)
  /\ py_int (String "-" digits)
     = (if (String.length digits <=? int_max_str_digits)%nat
        then Some (- Z.of_N (N.of_uint u)) else None).
Proof.
  intros Hu digits.
  pose proof (digits_all_digits u) as Hall. fold digits in Hall.
  assert (all_chars (fun c => negb (is_space c)) digits = true) as Hns.
  { apply (all_chars_impl is_digit); [|done].
    intros [[|] [|] [|] [|] [|] [|] [|] [|]]; by vm_compute. }
  pose proof (int_unsigned_decimal u Hu) as Hint. fold digits in Hint.
  destruct (digits_head u Hu) as (c & t & Hd & Hc). fold digits in Hd.
  split.
  - unfold py_int. rewrite (strip_fixed digits Hns), Hd.
    destruct (Ascii.eqb_spec c "+") as [->|_]; [done|].
    destruct (Ascii.eqb_spec c "-") as [->|_]; [done|].
    rewrite <- Hd. exact Hint.
  - unfold py_int. rewrite (strip_fixed (String "-" digits)) by (by cbn; rewrite Hns).
    change (Ascii.eqb "-" "+") with false.
    change (Ascii.eqb "-" "-") with true. cbv iota.
    rewrite Hint. by destruct (_ <=? _)%nat.
Qed.

Lemma py_str_int_chars (z : Z) :
  all_chars (fun c => is_digit c || Ascii.eqb c "-") (py_str_int z) = true.
Proof.
  destruct (py_str_int_cases z) as (u & _ & _ & _ & ->).
  assert (all_chars (fun c => is_digit c || Ascii.eqb c "-")
            (DecimalString.NilEmpty.string_of_uint u) = true) as Hu.
  { apply (all_chars_impl is_digit); [|apply digits_all_digits].
    by intros c ->. }
  destruct (z <? 0)%Z; [|done]. cbn [all_chars]. by rewrite Hu.
Qed.

Lemma digit_or_minus_not_space (c : ascii) :
  is_digit c || Ascii.eqb c "-" = true -> negb (is_space c) = true.
Proof. destruct c as [[|] [|] [|] [|] [|] [|] [|] [|]]; by vm_compute. Qed.

Lemma digit_or_minus_lower (c : ascii) :
  is_digit c || Ascii.eqb c "-" = true -> Ascii.eqb (lower_char c) c = true.
Proof. destruct c as [[|] [|] [|] [|] [|] [|] [|] [|]]; by vm_compute. Qed.

(** The number conversion on the text of an integer. *)
Lemma convert_to_number_py_str_int (z : Z) :
  convert_to_number (py_str_int z)
  = if (String.length (py_str_int (Z.abs z)) <=? int_max_str_digits)%nat
    then NInt z else NStr (py_str_int z).
Proof.
  pose proof (py_str_int_chars z) as Hchars.
  assert (strip (py_str_int z) = py_str_int z) as Hstrip.
  { apply strip_fixed. apply (all_chars_impl _ _ _ digit_or_minus_not_space Hchars). }
  assert (contains "." (py_str_int z) = false) as Hdot
    by exact (all_chars_not_contains
                (fun c => is_digit c || Ascii.eqb c "-") "." _ eq_refl Hchars).
  unfold convert_to_number. rewrite Hstrip, Hdot. cbn [negb].
  destruct (py_str_int_cases z) as (u & Hu & Hval & -> & Hs).
  destruct (py_int_digits u Hu) as [Hpos Hneg]. cbn zeta in Hpos, Hneg.
  rewrite Hs. destruct (Z.ltb_spec z 0) as [Hz|Hz].
  - cbn [truthy negb]. rewrite Hneg, Hval.
    destruct (String.length _ <=? int_max_str_digits)%nat; [|done].
    f_equal. lia.
  - destruct (digits_head u Hu) as (c & t & Hd & _).
    rewrite Hpos, Hval, Hd. cbn [truthy negb].
    destruct (String.length (String c t) <=? int_max_str_digits)%nat; [|done].
    f_equal. lia.
Qed.

(** X13. The decimal text of an integer is read back as that integer:
    when the digits are at most 4300, the number conversion returns the
    integer, and so does the inference unless the integer is 0 or 1, which
    are booleans.  With more digits the text stays a string. *)
Theorem decimal_text_is_read_back (z : Z) :
  ((String.length (py_str_int (Z.abs z)) <= 4300)%nat ->
   convert_to_number (py_str_int z) = NInt z
   /\ (z <> 0 -> z <> 1 -> infer_and_convert (py_str_int z) = VInt z))
  /\ ((4300 < String.length (py_str_int (Z.abs z)))%nat ->
      convert_to_number (py_str_int z) = NStr (py_str_int z)).
Proof.
  pose proof (convert_to_number_py_str_int z) as Hnum.
  unfold int_max_str_digits in Hnum.
  split; intros Hlen.
  - apply Nat.leb_le in Hlen. rewrite Hlen in Hnum.
    split; [exact Hnum|]. intros Hz0 Hz1.
    pose proof (py_str_int_chars z) as Hchars.
    assert (strip (py_str_int z) = py_str_int z) as Hstrip.
    { apply strip_fixed. apply (all_chars_impl _ _ _ digit_or_minus_not_space Hchars). }
    assert (lower (py_str_int z) = py_str_int z) as Hlower.
    { apply lower_fixed. apply (all_chars_impl _ _ _ digit_or_minus_lower Hchars). }
    assert (forall w z', w = py_str_int z' ->
              all_chars (fun c => is_digit c || Ascii.eqb c "-") w = true)
      as Hw by (intros w z' ->; apply py_str_int_chars).
    unfold infer_and_convert. rewrite Hnum, Hstrip.
    destruct (py_str_int z) as [|c t] eqn:Hs.
    { by destruct (py_str_int_cases z) as (u & Hu & _ & _ & Hcase);
        rewrite Hs in Hcase; destruct (z <? 0)%Z, u. }
    cbn [truthy negb]. unfold convert_to_bool. rewrite Hstrip, Hlower.
    rewrite !bool_decide_eq_false_2; [done| |].
    all: rewrite !elem_of_cons, elem_of_nil; intros [H|[H|[H|[]]]];
      rewrite H in Hchars; try discriminate Hchars.
    + rewrite H in Hnum. vm_compute in Hnum. congruence.
    + rewrite H in Hnum. vm_compute in Hnum. congruence.
  - apply Nat.leb_gt in Hlen. by rewrite Hlen in Hnum.
Qed.

Lemma decimal_text_is_read_back_witness :
  py_str_int (-45) = "-45"
  /\ TypeConverter.convert_to_number "-45" = NInt (-45)
  /\ TypeConverter.infer_and_convert "-45" = VInt (-45).
Proof.
  split; [reflexivity|].
  assert (String.length (py_str_int (Z.abs (-45))) <= 4300)%nat as Hlen.
  { apply Nat.leb_le. vm_compute. reflexivity. }
  destruct (proj1 (decimal_text_is_read_back (-45)) Hlen) as [Hnum Hinf].
  split; [exact Hnum|]. apply Hinf; discriminate.
Defined.

End DecimalRoundTrip.

(** ** Looking up the site of a URL *)

Section Lookup.
Import ConfigManager.

(** What [find] returns is the first element that satisfies the test. *)
Lemma find_first {A : Type} (f : A -> bool) (l : list A) (x : A) :
  List.find f l = Some x ->
  f x = true
  /\ exists before after,
       l = before ++ x :: after /\ Forall (fun y => f y = false) before.
Proof.
  induction l as [|y l IH]; [done|]. cbn [List.find].
  destruct (f y) eqn:Hy.
  - intros [= ->]. split; [done|]. by exists [], l.
  - intros (Hx & before & after & -> & Hb)%IH. split; [done|].
    exists (y :: before), after. split; [done|]. by constructor.
Qed.

(** While a configuration is served, the manager holds it, and every
    cached site is the one the search finds for its URL. *)
Lemma serving_invariant (config : ScraperConfig) (self : t) :
  serving config self ->
  _config self = Some config
  /\ forall url site,
       _site_cache self !! url = Some site ->
       List.find (matches url) (sites config) = Some site.
Proof.
  induction 1 as [self|self url _ [Hcfg Hcache]]; [done|].
  unfold lookup_site_config. rewrite Hcfg.
  destruct (_site_cache self !! url) as [site|] eqn:Hhit; [done|].
  destruct (List.find (matches url) (sites config)) as [site|] eqn:Hfind;
    [|done].
  cbn [snd _config _site_cache]. split; [done|].
  intros url' site'. destruct (decide (url = url')) as [<-|Hne].
  - rewrite lookup_insert_eq. by intros [= <-].
  - rewrite lookup_insert_ne by done. apply Hcache.
Qed.

(** X14. Once a configuration is loaded, a lookup returns the first site
    of the configuration whose pattern occurs in the URL, whatever was
    looked up before, and raises the error when no site matches: the cache
    never changes an answer. *)
Theorem lookup_returns_first_match
  (config : ScraperConfig) (self : t) (url : string) :
  serving config self ->
  (lookup_site_config self url).1
  = match List.find (matches url) (sites config) with
    | Some site => inr site
    | None => inl ("No site configuration found for URL: " +:+ url)
    end
  /\ (forall site,
        (lookup_site_config self url).1 = inr site ->
        substring_in (url_pattern site) url = true
        /\ exists before after,
             sites config = before ++ site :: after
             /\ Forall (fun earlier =>
                          substring_in (url_pattern earlier) url = false)
                  before).
Proof.
  intros Hserving.
  destruct (serving_invariant config self Hserving) as [Hcfg Hcache].
  assert ((lookup_site_config self url).1
          = match List.find (matches url) (sites config) with
            | Some site => inr site
            | None => inl ("No site configuration found for URL: " +:+ url)
            end) as Hres.
  { unfold lookup_site_config. rewrite Hcfg.
    destruct (_site_cache self !! url) as [site|] eqn:Hhit.
    - by rewrite (Hcache url site Hhit).
    - by destruct (List.find (matches url) (sites config)). }
  split; [exact Hres|].
  intros site Hsite. rewrite Hres in Hsite.
  destruct (List.find (matches url) (sites config)) as [site'|] eqn:Hfind;
    [|done].
  injection Hsite as ->. by apply find_first in Hfind.
Qed.

(** X15. Looking a URL up a second time gives the answer of the first
    time and leaves the manager as the first lookup left it. *)
Theorem lookup_twice (self : t) (url : string) :
  lookup_site_config (lookup_site_config self url).2 url
  = ((lookup_site_config self url).1, (lookup_site_config self url).2).
Proof.
  unfold lookup_site_config.
  destruct (_config self) as [config|] eqn:Hcfg; cbn [fst snd];
    [|by rewrite ?Hcfg].
  destruct (_site_cache self !! url) as [site|] eqn:Hhit; cbn [fst snd];
    [by rewrite ?Hcfg, ?Hhit|].
  destruct (List.find (matches url) (sites config)) as [site|] eqn:Hfind;
    cbn [fst snd _config _site_cache];
    by rewrite ?Hcfg, ?lookup_insert_eq, ?Hhit, ?Hfind.
Qed.

End Lookup.

Lemma lookup_returns_first_match_witness :
  let general := Stub.site [("name", "h1")] [] in
  let config :=
    {| sites := [general; Stub.site [("name", "h2")] []];
       primary_library := "scrapling";
       default_timeout := 30; default_max_retries := 3 |} in
  let self := ConfigManager.loaded ConfigManager.new config in
  (ConfigManager.lookup_site_config
     (ConfigManager.lookup_site_config self "https://example.org/a").2
     "https://example.org/b").1
  = inr general.
Proof.
  cbv zeta.
  refine (eq_trans
            (proj1 (lookup_returns_first_match _ _ "https://example.org/b"
                      (ConfigManager.serving_lookup _ _ "https://example.org/a"
                         (ConfigManager.serving_loaded _ ConfigManager.new))))
            _).
  vm_compute. reflexivity.
Defined.

(** ** The response of [scrape_facility] *)

Section Response.
Import Api.

Variable E : Engine.
Variable W : World.

(** A returned response is either the initial dict with an error, or the
    response built from a completed extraction on the first matching
    site. *)
Lemma scrape_facility_returned
  (url config_path : string) (output_path : option string) (resp : Response) :
  scrape_facility E W url config_path output_path = inl resp ->
  (exists msg, resp = failure msg)
  \/ (exists config normalized site html r,
        load_config W config_path = Done config
        /\ validate_and_normalize_url W url = Done normalized
        /\ List.find (ConfigManager.matches normalized) (sites config)
           = Some site
        /\ fetch_content W config normalized = Done html
        /\ ExtractionEngine.extract_fields E (timestamp W) html site = Return r
        /\ resp_success resp = success r
        /\ resp_priority_fields resp = res_priority_fields r
        /\ resp_extra_metadata resp = extra_metadata r
        /\ (exists m, resp_metadata resp = Some (m, fields_status r)
                      /\ md_success m = md_success (metadata r)
                      /\ failure_reason m = failure_reason (metadata r)
                      /\ extraction_duration_seconds m = duration W)
        /\ resp_error resp = None).
Proof.
  unfold scrape_facility.
  destruct (load_config W config_path) as [config|msg|msg] eqn:Hload;
    [|intros [= <-]; left; eauto|done].
  destruct (validate_and_normalize_url W url) as [normalized|msg|msg] eqn:Hurl;
    [|intros [= <-]; left; eauto|done].
  unfold ConfigManager.lookup_site_config, ConfigManager.loaded.
  cbn [ConfigManager._config ConfigManager._site_cache].
  rewrite lookup_empty.
  destruct (List.find (ConfigManager.matches normalized) (sites config))
    as [site|] eqn:Hfind; [|intros [= <-]; left; eauto].
  destruct (fetch_content W config normalized) as [html|msg|msg] eqn:Hfetch;
    [|intros [= <-]; left; eauto|done].
  destruct (ExtractionEngine.extract_fields E (timestamp W) html site)
    as [r|e] eqn:Hr; [|intros [= <-]; left; eauto].
  destruct (format_result W r) as [toml|e]; [|intros [= <-]; left; eauto].
  destruct (match output_path with
            | Some path =>
                if PyStr.truthy path then write_and_verify W toml path
                else Done tt
            | None => Done tt
            end) as [[]|msg|msg]; [|intros [= <-]; left; eauto|done].
  intros [= <-]. right. exists config, normalized, site, html, r.
  cbn. repeat split; try done. eexists. by repeat split.
Qed.

(** X16. A response that carries an error carries nothing else: its
    success flag is false, its two data dicts are empty and its metadata
    is the empty dict, also when the fields had been extracted and only
    the formatting or the writing of the file failed.  A response without
    error reports a completed extraction, on the first configured site
    whose pattern occurs in the normalized URL. *)
Theorem response_error_excludes_data
  (url config_path : string) (output_path : option string) (resp : Response) :
  scrape_facility E W url config_path output_path = inl resp ->
  (is_Some (resp_error resp) ->
   resp_success resp = false
   /\ resp_priority_fields resp = ∅
   /\ resp_extra_metadata resp = ∅
   /\ resp_metadata resp = None)
  /\ (resp_error resp = None ->
      exists config normalized site html r,
        load_config W config_path = Done config
        /\ validate_and_normalize_url W url = Done normalized
        /\ List.find (ConfigManager.matches normalized) (sites config)
           = Some site
        /\ fetch_content W config normalized = Done html
        /\ ExtractionEngine.extract_fields E (timestamp W) html site = Return r
        /\ resp_success resp = success r
        /\ resp_priority_fields resp = res_priority_fields r
        /\ resp_extra_metadata resp = extra_metadata r
        /\ exists m, resp_metadata resp = Some (m, fields_status r)).
Proof.
  intros [(msg & ->)|(config & normalized & site & html & r & Hload & Hurl
                      & Hfind & Hfetch & Hr & Hs & Hp & Hx & (m & Hm & _) & He)]
           %scrape_facility_returned.
  - split; [done|]. intros [=].
  - split.
    + rewrite He. by intros [? [=]].
    + intros _. exists config, normalized, site, html, r.
      repeat split; try done. by exists m.
Qed.

(** X17. In a returned response the success flag is true exactly when one
    of the two data dicts holds a value, and a response flagged as
    successful has no error. *)
Theorem response_success_iff_data
  (url config_path : string) (output_path : option string) (resp : Response) :
  scrape_facility E W url config_path output_path = inl resp ->
  (resp_success resp = true
   <-> resp_priority_fields resp <> ∅ \/ resp_extra_metadata resp <> ∅)
  /\ (resp_success resp = true -> resp_error resp = None).
Proof.
  intros [(msg & ->)|(config & normalized & site & html & r & _ & _
                      & _ & _ & Hr & Hs & Hp & Hx & _ & He)]
           %scrape_facility_returned.
  - cbn. split; [|done]. split; [done|]. by intros [?|?].
  - split; [|done]. rewrite Hs, Hp, Hx.
    pose proof (result_no_data_iff E _ _ _ r Hr) as Hdata.
    rewrite (result_success_flag E _ _ _ r Hr).
    case_bool_decide as Hnil; cbn [negb].
    + apply Hdata in Hnil as [-> ->]. split; [done|]. by intros [?|?].
    + split; [|done]. intros _.
      destruct (decide (res_priority_fields r = ∅)) as [Hpe|Hpe]; [|by left].
      destruct (decide (extra_metadata r = ∅)) as [Hxe|Hxe]; [|by right].
      destruct Hnil. by apply Hdata.
Qed.

(** X18. No exception of the extraction or of the formatting leaves
    [scrape_facility]: an exception that leaves the call is one that the
    loading of the configuration, the validation of the URL, the fetch or
    the writing of the file raised and that is not of the class caught
    around that step. *)
Theorem only_uncaught_steps_raise
  (url config_path : string) (output_path : option string) (msg : string) :
  scrape_facility E W url config_path output_path = inr msg ->
  load_config W config_path = Uncaught msg
  \/ validate_and_normalize_url W url = Uncaught msg
  \/ (exists config normalized,
        fetch_content W config normalized = Uncaught msg)
  \/ (exists toml path,
        output_path = Some path /\ PyStr.truthy path = true
        /\ write_and_verify W toml path = Uncaught msg).
Proof.
  unfold scrape_facility.
  destruct (load_config W config_path) as [config|?|msg'] eqn:Hload;
    [|done|intros [= <-]; by left].
  destruct (validate_and_normalize_url W url) as [normalized|?|msg'] eqn:Hurl;
    [|done|intros [= <-]; right; by left].
  destruct (ConfigManager.lookup_site_config _ normalized) as [[?|site] ?];
    [done|].
  destruct (fetch_content W config normalized) as [html|?|msg'] eqn:Hfetch;
    [|done|intros [= <-]; right; right; left; eauto].
  destruct (ExtractionEngine.extract_fields E (timestamp W) html site)
    as [r|e]; [|done].
  destruct (format_result W r) as [toml|e]; [|done].
  destruct output_path as [path|]; [|done].
  destruct (PyStr.truthy path) eqn:Hpath; [|done].
  destruct (write_and_verify W toml path) as [[]|?|msg'] eqn:Hwrite; try done.
  intros [= <-]. do 3 right. eauto.
Qed.

End Response.

Lemma response_error_excludes_data_witness :
  exists resp,
    Api.scrape_facility Stub.engine
      (StubWorld.world "<h1>Acme</h1>" (Api.Caught "No space left on device"))
      "https://example.org/lab" "./config.toml" (Some "./out.toml")
    = inl resp
    /\ Api.resp_error resp = Some "No space left on device"
    /\ Api.resp_success resp = false
    /\ Api.resp_priority_fields resp = ∅.
Proof.
  eexists. split; [vm_compute; reflexivity|].
  split; [reflexivity|].
  destruct (proj1 (response_error_excludes_data Stub.engine
                     (StubWorld.world "<h1>Acme</h1>"
                        (Api.Caught "No space left on device"))
                     "https://example.org/lab" "./config.toml"
                     (Some "./out.toml") _ eq_refl))
    as (Hs & Hp & _); [by eexists|].
  split; [exact Hs|exact Hp].
Defined.

Lemma response_success_iff_data_witness :
  exists resp,
    Api.scrape_facility Stub.engine
      (StubWorld.world "<h1>Acme</h1>" (Api.Done tt))
      "https://example.org/lab" "./config.toml" (Some "./out.toml")
    = inl resp
    /\ Api.resp_success resp = true
    /\ Api.resp_error resp = None
    /\ Api.resp_priority_fields resp !! "name" = Some (VStr "Acme").
Proof.
  eexists. split; [vm_compute; reflexivity|].
  split; [reflexivity|]. split; [|reflexivity].
  exact (proj2 (response_success_iff_data Stub.engine
                  (StubWorld.world "<h1>Acme</h1>" (Api.Done tt))
                  "https://example.org/lab" "./config.toml"
                  (Some "./out.toml") _ eq_refl) eq_refl).
Defined.

Lemma only_uncaught_steps_raise_witness :
  Api.scrape_facility Stub.engine
    (StubWorld.world "<h1>Acme</h1>" (Api.Uncaught "embedded null byte"))
    "https://example.org/lab" "./config.toml" (Some "./out.toml")
  = inr "embedded null byte"
  /\ exists toml,
       Api.write_and_verify
         (StubWorld.world "<h1>Acme</h1>" (Api.Uncaught "embedded null byte"))
         toml "./out.toml"
       = Api.Uncaught "embedded null byte".
Proof.
  split; [vm_compute; reflexivity|].
  destruct (only_uncaught_steps_raise Stub.engine
              (StubWorld.world "<h1>Acme</h1>"
                 (Api.Uncaught "embedded null byte"))
              "https://example.org/lab" "./config.toml" (Some "./out.toml")
              "embedded null byte" eq_refl)
    as [H|[H|[(? & ? & H)|(toml & path & [= <-] & _ & H)]]];
    try discriminate H.
  by exists toml.
Defined.

(** ** The retry loop of [fetch_content] *)

Section Retry.
Import ScrapingEngine.

Variable N : Net.
Variable self : t.
Variable url : string.
Variable ts : Z.

(** [k] attempts that fail and sleep are skipped by the loop. *)
Lemma fetch_loop_skip (k : nat) : forall attempt fuel last log,
  (forall i, (attempt <= i < attempt + k)%nat -> fails_and_sleeps N url ts i) ->
  (Z.of_nat (attempt + k) <= _max_retries self)%Z ->
  (k <= fuel)%nat ->
  exists last',
    fetch_loop N self url ts fuel attempt last log
    = fetch_loop N self url ts (fuel - k) (attempt + k) last'
        (log ++ retries url ts attempt k).
Proof.
  induction k as [|k IH]; intros attempt fuel last log Hfail Hmax Hfuel.
  - exists last. by rewrite Nat.sub_0_r, Nat.add_0_r, app_nil_r.
  - destruct fuel as [|fuel]; [lia|].
    destruct (Hfail attempt ltac:(lia)) as [(e & He & Hretried) Hsleep].
    cbn [fetch_loop].
    rewrite (proj2 (Z.leb_le _ _)) by lia.
    rewrite He, Hretried, (proj2 (Z.ltb_lt _ _)) by lia.
    rewrite Hsleep.
    destruct (IH (S attempt) fuel (Some e)
                ((log ++ [Fetch url ts]) ++ [Sleep attempt]))
      as [last' Heq]; [intros i Hi; apply Hfail; lia|lia|lia|].
    exists last'. rewrite Heq. cbn [Nat.sub retries].
    f_equal; [lia|]. by rewrite <- !app_assoc.
Qed.



End Retry.

(** X19. The loop stops at the first attempt that does not end with a
    network error: when the attempts before attempt [k] fail with network
    errors and their sleeps go well, and [k] is within the retries allowed,
    [fetch_content] returns the content attempt [k] returns, or raises the
    exception it raises when that is not a network error.  It has then made
    [k + 1] fetches of the same URL with the same timeout and slept after
    each failed one, for 2 to the power 0, 1, ..., [k - 1] seconds. *)
Theorem fetch_content_stops_at_first_answer
  (N : ScrapingEngine.Net) (config : ScraperConfig) (url : string)
  (timeout : option Z) (k : nat) :
  let self := ScrapingEngine.new config in
  let ts :=
    match timeout with
    | Some seconds => if (seconds =? 0)%Z then default_timeout config else seconds
    | None => default_timeout config
    end in
  (Z.of_nat k <= default_max_retries config)%Z ->
  (forall i, (i < k)%nat -> ScrapingEngine.fails_and_sleeps N url ts i) ->
  (forall content,
     ScrapingEngine._fetch_with_timeout N k url ts = inl content ->
     ScrapingEngine.fetch_content N self url timeout
     = (inl content,
        ScrapingEngine.retries url ts 0 k ++ [ScrapingEngine.Fetch url ts]))
  /\ (forall e,
        ScrapingEngine._fetch_with_timeout N k url ts = inr e ->
        ScrapingEngine.retried e = false ->
        ScrapingEngine.fetch_content N self url timeout
        = (inr e,
           ScrapingEngine.retries url ts 0 k ++ [ScrapingEngine.Fetch url ts])).
Proof.
  intros self ts Hk Hfail.
  assert (exists last',
    ScrapingEngine.fetch_content N self url timeout
    = ScrapingEngine.fetch_loop N self url ts
        (Z.to_nat (default_max_retries config + 1) - k) k last'
        (ScrapingEngine.retries url ts 0 k)) as [last' Heq].
  { unfold ScrapingEngine.fetch_content. fold ts.
    destruct (fetch_loop_skip N self url ts k 0
                (Z.to_nat (ScrapingEngine._max_retries self + 1)) None [])
      as [last' Heq]; [intros i Hi; apply Hfail; lia|cbn; lia|cbn; lia|].
    exists last'. exact Heq. }
  rewrite Heq.
  destruct (Z.to_nat (default_max_retries config + 1) - k)%nat
    as [|fuel] eqn:Hfuel; [lia|].
  cbn [ScrapingEngine.fetch_loop].
  rewrite (proj2 (Z.leb_le _ _)) by (cbn; lia).
  split.
  - by intros content ->.
  - by intros e -> ->.
Qed.

(** X20. When every attempt allowed fails with a network error (and the
    sleeps go well), [fetch_content] raises the error of the last attempt,
    after [max_retries + 1] fetches and [max_retries] sleeps. *)
Theorem fetch_content_raises_last_error
  (N : ScrapingEngine.Net) (config : ScraperConfig) (url : string)
  (timeout : option Z) (e : ScrapingEngine.error) :
  let self := ScrapingEngine.new config in
  let ts :=
    match timeout with
    | Some seconds => if (seconds =? 0)%Z then default_timeout config else seconds
    | None => default_timeout config
    end in
  let k := Z.to_nat (default_max_retries config) in
  (0 <= default_max_retries config)%Z ->
  (forall i, (i < k)%nat -> ScrapingEngine.fails_and_sleeps N url ts i) ->
  ScrapingEngine._fetch_with_timeout N k url ts = inr e ->
  ScrapingEngine.retried e = true ->
  ScrapingEngine.fetch_content N self url timeout
  = (inr e,
     ScrapingEngine.retries url ts 0 k ++ [ScrapingEngine.Fetch url ts])
  /\ length (filter (fun ev => ScrapingEngine.is_fetch ev = true)
               (ScrapingEngine.fetch_content N self url timeout).2)
     = S k.
Proof.
  intros self ts k Hmax Hfail He Hretried.
  assert (ScrapingEngine.fetch_content N self url timeout
          = (inr e,
             ScrapingEngine.retries url ts 0 k
               ++ [ScrapingEngine.Fetch url ts])) as Hres.
  { change (ScrapingEngine.fetch_content N self url timeout)
      with (ScrapingEngine.fetch_loop N self url ts
              (Z.to_nat (ScrapingEngine._max_retries self + 1)) 0 None []).
    destruct (fetch_loop_skip N self url ts k 0
                (Z.to_nat (ScrapingEngine._max_retries self + 1)) None [])
      as [last' Heq];
      [intros i Hi; apply Hfail; lia|cbn; lia|cbn; lia|].
    rewrite Heq.
    destruct (Z.to_nat (ScrapingEngine._max_retries self + 1) - k)%nat
      as [|fuel] eqn:Hfuel; [cbn in Hfuel; lia|].
    cbn [ScrapingEngine.fetch_loop Nat.add].
    rewrite (proj2 (Z.leb_le _ _)) by (cbn; lia).
    rewrite He, Hretried.
    by rewrite (proj2 (Z.ltb_ge _ _)) by (cbn; lia). }
  split; [exact Hres|]. rewrite Hres. cbn [snd].
  rewrite filter_app, length_app, filter_cons_True by done.
  rewrite filter_nil.
  assert (forall a n,
    length (filter (fun ev => ScrapingEngine.is_fetch ev = true)
              (ScrapingEngine.retries url ts a n)) = n) as Hcount.
  { intros a n. revert a.
    induction n as [|n IH]; intros a; [done|].
    cbn [ScrapingEngine.retries].
    rewrite filter_cons_True, filter_cons_False by done.
    cbn [length]. by rewrite IH. }
  rewrite Hcount. cbn. lia.
Qed.


Lemma fetch_content_stops_at_first_answer_witness :
  ScrapingEngine.fetch_content StubNet.flaky
    (ScrapingEngine.new StubWorld.config) "https://example.org" None
  = (inl "<h1>Acme</h1>",
     [ScrapingEngine.Fetch "https://example.org" 30; ScrapingEngine.Sleep 0;
      ScrapingEngine.Fetch "https://example.org" 30; ScrapingEngine.Sleep 1;
      ScrapingEngine.Fetch "https://example.org" 30]).
Proof.
  refine (proj1 (fetch_content_stops_at_first_answer StubNet.flaky
                   StubWorld.config "https://example.org" None 2 _ _)
            "<h1>Acme</h1>" eq_refl).
  - cbn. lia.
  - intros [|[|i]] Hi; [| |lia]; (split; [eexists; by split|done]).
Defined.

Lemma fetch_content_raises_last_error_witness :
  (ScrapingEngine.fetch_content StubNet.down
     (ScrapingEngine.new StubWorld.config) "https://example.org" (Some 5)).1
  = inr (ScrapingEngine.NetworkTimeout "Request timed out after 30s")
  /\ length (filter (fun ev => ScrapingEngine.is_fetch ev = true)
               (ScrapingEngine.fetch_content StubNet.down
                  (ScrapingEngine.new StubWorld.config)
                  "https://example.org" (Some 5)).2)
     = 4%nat.
Proof.
  destruct (fetch_content_raises_last_error StubNet.down StubWorld.config
              "https://example.org" (Some 5)
              (ScrapingEngine.NetworkTimeout "Request timed out after 30s"))
    as [Hres Hcount].
  - cbn. lia.
  - intros i _. split; [eexists; by split|done].
  - reflexivity.
  - reflexivity.
  - split; [by rewrite Hres|exact Hcount].
Defined.


(** ** Joined texts and the list inferred from them *)

Section JoinSplit.
Import PyStr TypeConverter.

Lemma trimmed_lstrip (t : string) : trimmed t -> lstrip_by is_space t = t.
Proof.
  intros [_ Hstrip]. unfold strip, strip_by in Hstrip.
  destruct (lstrip_by_head is_space t) as [Hl|(c & u & Hl & Hc)].
  - rewrite Hl in Hstrip. by rewrite <- Hstrip.
  - rewrite Hl, (rstrip_by_cons_keep is_space c u Hc) in Hstrip.
    rewrite <- Hstrip. cbn [lstrip_by]. by rewrite Hc.
Qed.

Lemma trimmed_rstrip (t : string) : trimmed t -> rstrip_by is_space t = t.
Proof.
  intros Ht. pose proof (trimmed_lstrip t Ht) as Hl.
  destruct Ht as [_ Hstrip]. unfold strip, strip_by in Hstrip.
  by rewrite Hl in Hstrip.
Qed.

Lemma lstrip_by_app_keep (p : ascii -> bool) (a b : string) :
  truthy a = true -> lstrip_by p a = a -> lstrip_by p (a +:+ b) = a +:+ b.
Proof.
  destruct a as [|c a]; [done|]. intros _. rewrite append_cons.
  cbn [lstrip_by]. destruct (p c) eqn:Hc; [|done].
  intros Ha. exfalso.
  assert (String.length (lstrip_by p a) <= String.length a)%nat as Hlen.
  { clear. induction a as [|d a IH]; cbn; [lia|]. destruct (p d); cbn; lia. }
  rewrite Ha in Hlen. cbn in Hlen. lia.
Qed.

Lemma rstrip_by_app_keep (p : ascii -> bool) (a b : string) :
  truthy b = true -> rstrip_by p b = b -> rstrip_by p (a +:+ b) = a +:+ b.
Proof.
  intros Hb Hr. induction a as [|c a IH]; [by rewrite append_nil_l|].
  rewrite append_cons. cbn [rstrip_by]. rewrite IH.
  destruct a; [rewrite append_nil_l; by destruct b|by rewrite append_cons].
Qed.

Lemma truthy_app_r (a b : string) : truthy b = true -> truthy (a +:+ b) = true.
Proof. destruct a; [by rewrite append_nil_l|by rewrite append_cons]. Qed.

Lemma truthy_app_l (a b : string) : truthy a = true -> truthy (a +:+ b) = true.
Proof. destruct a; [done|by rewrite append_cons]. Qed.

Lemma append_assoc (a b c : string) : (a +:+ b) +:+ c = a +:+ b +:+ c.
Proof.
  induction a as [|d a IH]; [by rewrite !append_nil_l|].
  by rewrite !append_cons, IH.
Qed.

(** Trimmed ends make a trimmed whole. *)
Lemma trimmed_app (a m b : string) :
  trimmed a -> trimmed b -> trimmed (a +:+ m +:+ b).
Proof.
  intros Ha Hb. split; [apply truthy_app_l, Ha|].
  unfold strip, strip_by.
  rewrite (lstrip_by_app_keep is_space a _ (proj1 Ha) (trimmed_lstrip a Ha)).
  rewrite <- append_assoc.
  rewrite (rstrip_by_app_keep is_space (a +:+ m) b (proj1 Hb)
             (trimmed_rstrip b Hb)).
  by rewrite append_assoc.
Qed.

Lemma join_cons (sep x y : string) (l : list string) :
  join sep (x :: y :: l) = x +:+ sep +:+ join sep (y :: l).
Proof. reflexivity. Qed.

Lemma join_trimmed (texts : list string) :
  texts <> [] -> Forall trimmed texts -> trimmed (join ", " texts).
Proof.
  induction texts as [|x [|y l] IH]; intros Hne Hall; [done|..].
  - by apply Forall_inv in Hall.
  - rewrite join_cons. apply Forall_cons in Hall as [Hx Hall].
    apply trimmed_app; [done|]. by apply IH.
Qed.

Lemma split_no_separator (sep : ascii) (a : string) :
  contains sep a = false -> split sep a = [a].
Proof.
  induction a as [|c a IH]; [done|]. cbn [contains split].
  intros [Hc Ha]%orb_false_elim. by rewrite Hc, (IH Ha).
Qed.

Lemma split_app_separator (sep : ascii) (a b : string) :
  contains sep a = false ->
  split sep (a +:+ String sep b) = a :: split sep b.
Proof.
  induction a as [|c a IH].
  - intros _. rewrite append_nil_l. cbn [split]. by rewrite Ascii.eqb_refl.
  - cbn [contains]. intros [Hc Ha]%orb_false_elim.
    rewrite append_cons. cbn [split]. by rewrite Hc, (IH Ha).
Qed.

(** Splitting the joined texts on the comma gives the texts back, each but
    the first after the space of the separator. *)
Lemma split_join (texts : list string) (x : string) :
  Forall (fun t => contains "," t = false) (x :: texts) ->
  split "," (join ", " (x :: texts)) = x :: (String " " <$> texts).
Proof.
  revert x. induction texts as [|y l IH]; intros x Hall.
  - apply Forall_inv in Hall. by apply split_no_separator.
  - apply Forall_cons in Hall as [Hx Hall].
    rewrite join_cons.
    change (", " +:+ join ", " (y :: l))
      with (String "," (String " " (join ", " (y :: l)))).
    rewrite (split_app_separator "," x _ Hx). f_equal.
    cbn [split]. change (Ascii.eqb " " ",") with false. cbv iota.
    by rewrite (IH y Hall).
Qed.

Lemma strip_after_space (t : string) : trimmed t -> strip (String " " t) = t.
Proof.
  intros Ht. unfold strip, strip_by. cbn [lstrip_by].
  change (is_space " ") with true. cbv iota. apply Ht.
Qed.

Lemma pieces_join (texts : list string) :
  Forall trimmed texts ->
  Forall (fun t => contains "," t = false) texts ->
  pieces "," (join ", " texts) = texts.
Proof.
  destruct texts as [|x texts]; [done|]. intros Htrim Hcomma.
  unfold pieces. rewrite (split_join texts x Hcomma).
  apply Forall_cons in Htrim as [Hx Htrim].
  rewrite fmap_cons, (proj2 Hx), filter_cons_True by apply Hx. f_equal.
  clear Hcomma. induction texts as [|y l IH]; [done|].
  apply Forall_cons in Htrim as [Hy Htrim].
  rewrite !fmap_cons, (strip_after_space y Hy), filter_cons_True by apply Hy.
  f_equal. by apply IH.
Qed.

(** The list conversion of joined texts gives the texts back. *)
Lemma convert_to_list_join (texts : list string) :
  (2 <= length texts)%nat ->
  Forall trimmed texts ->
  Forall (fun t => contains "," t = false) texts ->
  trimmed (join ", " texts)
  /\ contains "," (join ", " texts) = true
  /\ convert_to_list (join ", " texts) default_separators = inl texts.
Proof.
  intros Hlen Htrim Hcomma.
  assert (trimmed (join ", " texts)) as Hjoin.
  { apply join_trimmed; [|done]. intros ->. cbn in Hlen. lia. }
  assert (contains "," (join ", " texts) = true) as Hsep.
  { destruct texts as [|x [|y l]]; [cbn in Hlen; lia..|].
    rewrite join_cons. clear. induction x as [|c x IH]; [done|].
    rewrite append_cons. cbn [contains]. rewrite IH. apply orb_true_r. }
  split; [exact Hjoin|]. split; [exact Hsep|].
  destruct Hjoin as [Htruthy Hstrip].
  unfold convert_to_list. rewrite Hstrip, Htruthy. cbn [negb].
  unfold default_separators. cbn [convert_to_list_loop]. rewrite Hsep.
  fold (pieces "," (join ", " texts)). rewrite (pieces_join texts) by done.
  by rewrite (proj2 (Nat.ltb_lt _ _)) by lia.
Qed.

(** X22. Texts joined by a comma and a space are inferred as the list of
    those texts: for two or more texts, each non-empty, without
    surrounding whitespace and without a comma, [infer_and_convert] of
    their join is the list of the texts, in order. *)
Theorem joined_texts_are_inferred_as_their_list (texts : list string) :
  (2 <= length texts)%nat ->
  Forall trimmed texts ->
  Forall (fun t => contains "," t = false) texts ->
  infer_and_convert (join ", " texts) = VList texts
  /\ convert_to_list (join ", " texts) default_separators = inl texts.
Proof.
  intros Hlen Htrim Hcomma.
  destruct (convert_to_list_join texts Hlen Htrim Hcomma)
    as ([Htruthy Hstrip] & Hsep & Hlist).
  split; [|exact Hlist].
  unfold infer_and_convert. rewrite Hstrip, Htruthy. cbn [negb].
  assert (","%char ∈ default_separators) as Hin by left.
  rewrite (convert_to_bool_separator "," _ Hin) by by rewrite Hstrip.
  rewrite (convert_to_number_separator "," _ Hin) by by rewrite Hstrip.
  by rewrite Hlist.
Qed.

Lemma joined_texts_are_inferred_as_their_list_witness :
  infer_and_convert "Python, Go, 3D printing"
  = VList ["Python"; "Go"; "3D printing"].
Proof.
  refine (proj1 (joined_texts_are_inferred_as_their_list
                   ["Python"; "Go"; "3D printing"] _ _ _)).
  - cbn. lia.
  - repeat constructor.
  - repeat constructor.
Defined.

End JoinSplit.

(** X23. A CSS rule that matches several elements yields the list of their
    texts: when two or more texts are left after the empty ones are
    dropped, each without surrounding whitespace and without a comma, the
    field is extracted as the list of those texts, in document order. *)
Theorem css_rule_with_many_matches_yields_list
  (E : Engine) (doc : soup E) (rule pattern : string) (elements : list (tag E)) :
  RuleParser.parse_rule rule = ("css", pattern) ->
  select E doc pattern = Return elements ->
  let survivors :=
    filter (fun t => PyStr.truthy t = true) (get_text E <$> elements) in
  (2 <= length survivors)%nat ->
  Forall (fun t => PyStr.strip t = t /\ PyStr.contains "," t = false)
    survivors ->
  field_result_of doc rule = Extracted (VList survivors).
Proof.
  intros Hrule Hsel survivors Hlen Hall.
  assert (Forall trimmed survivors) as Htrim.
  { apply Forall_forall. intros t Ht. split.
    - by apply list_elem_of_filter in Ht as [? _].
    - by apply (proj1 (Forall_forall _ _) Hall t Ht). }
  assert (Forall (fun t => PyStr.contains "," t = false) survivors) as Hcomma.
  { apply Forall_forall. intros t Ht.
    by apply (proj1 (Forall_forall _ _) Hall t Ht). }
  assert (ExtractionEngine._extract_single_field E doc rule
          = Return (Some (PyStr.join ", " survivors))) as Hfield.
  { unfold ExtractionEngine._extract_single_field.
    rewrite (parse_rule_css_truthy rule pattern Hrule), Hrule. cbn [negb].
    cbn [String.eqb Ascii.eqb Bool.eqb].
    unfold ExtractionEngine._extract_css. rewrite Hsel.
    case_bool_decide as Hnil.
    { exfalso. subst survivors. subst elements. cbn in Hlen. lia. }
    fold survivors. by destruct survivors as [|t [|t' l]]; [cbn in Hlen; lia..|]. }
  unfold field_result_of. rewrite Hfield.
  destruct (convert_to_list_join survivors Hlen Htrim Hcomma)
    as ([Htruthy Hstrip] & Hsep & Hlist).
  rewrite Hstrip, Htruthy. f_equal.
  unfold TypeConverter.infer_and_convert. rewrite Hstrip, Htruthy. cbn [negb].
  assert (","%char ∈ TypeConverter.default_separators) as Hin by left.
  rewrite (convert_to_bool_separator "," _ Hin) by by rewrite Hstrip.
  rewrite (convert_to_number_separator "," _ Hin) by by rewrite Hstrip.
  by rewrite Hlist.
Qed.

Lemma css_rule_with_many_matches_yields_list_witness :
  field_result_of (E := Stub.engine)
    "<li>Laser cutter</li><li> </li><li>3D printer</li>" "li"
  = Extracted (VList ["Laser cutter"; "3D printer"]).
Proof.
  refine (css_rule_with_many_matches_yields_list Stub.engine
            "<li>Laser cutter</li><li> </li><li>3D printer</li>" "li" "li"
            [("li", "Laser cutter"); ("li", " "); ("li", "3D printer")]
            eq_refl eq_refl _ _).
  - vm_compute. lia.
  - vm_compute. repeat constructor.
Defined.
